(** * findit backend: the description-matching endpoint

    A shallow embedding of [computeTextSimilarity] and of the
    [POST /matchingfounditems] handler of [backend_findit/app.js], and the
    properties of the matching engine checked against them.

    JavaScript numbers are IEEE-754 binary64 values: they are modelled by
    Rocq's primitive [float], whose operations are the same binary64
    operations (round to nearest even, one NaN).  The arithmetic of
    [cosineSimilarity] is written over an interface of number operations,
    which the binary64 numbers implement. *)

From Stdlib Require Import Floats ZArith Ascii String.
From stdpp Require Import base option list strings gmap.

Set Default Proof Using "Type".

(** ** Numbers *)

(** The operations [cosineSimilarity] uses on numbers.  [num_nan] is what
    [value * undefined] evaluates to. *)
Class JsNumber (num : Type) := {
  num_zero : num;
  num_add : num -> num -> num;
  num_mul : num -> num -> num;
  num_div : num -> num -> num;
  num_sqrt : num -> num;
  num_nan : num
}.

Declare Scope js_scope.
Delimit Scope js_scope with js.
Notation "x + y" := (num_add x y) : js_scope.
Notation "x * y" := (num_mul x y) : js_scope.
Notation "x / y" := (num_div x y) : js_scope.

(** JavaScript numbers proper. *)
#[export] Instance float_JsNumber : JsNumber float := {|
  num_zero := 0%float;
  num_add := PrimFloat.add;
  num_mul := PrimFloat.mul;
  num_div := PrimFloat.div;
  num_sqrt := PrimFloat.sqrt;
  num_nan := nan
|}.

(** ** Arrays *)

(** [Array.prototype.reduce] with an initial value: the callback receives
    the accumulator, the element and its index. *)
Fixpoint reduceFrom {A B : Type} (callback : B -> A -> nat -> B)
    (index : nat) (arr : list A) (acc : B) : B :=
  match arr with
  | [] => acc
  | value :: rest => reduceFrom callback (S index) rest (callback acc value index)
  end.

Definition reduce {A B : Type} (callback : B -> A -> nat -> B)
    (arr : list A) (initial : B) : B :=
  reduceFrom callback 0 arr initial.

Section Cosine.
Context {num : Type} `{JsNumber num}.
Local Open Scope js_scope.

(** [value * b[index]]: an index past the end of [b] reads [undefined],
    and a number times [undefined] is NaN. *)
Definition timesAt (value : num) (b : list num) (index : nat) : num :=
  match b !! index with
  | Some other => value * other
  | None => num_nan
  end.

(** The expression bound to [normA] and to [normB]. *)
Definition norm (v : list num) : num :=
  num_sqrt (reduce (fun sum value _ => sum + value * value) v num_zero).

(** The local function [cosineSimilarity] of [computeTextSimilarity]
    (app.js, lines 305-310). *)
Definition cosineSimilarity (a b : list num) : num :=
  let dotProduct := reduce (fun sum value index => sum + timesAt value b index) a num_zero in
  let normA := num_sqrt (reduce (fun sum value _ => sum + value * value) a num_zero) in
  let normB := num_sqrt (reduce (fun sum value _ => sum + value * value) b num_zero) in
  dotProduct / (normA * normB).
End Cosine.

(** ** Values, errors and effects *)

(** How the evaluation of a JavaScript expression ends: with a value, or
    with a thrown error (a rejected promise under [await]), of which the
    model keeps [error.message]. *)
Inductive Completion (A : Type) : Type :=
| Normal (value : A)
| Throw (message : string).
Arguments Normal {A} value.
Arguments Throw {A} message.

(** A document of the [FoundItem] collection, with the fields
    [/reportfound] stores. *)
Record FoundItem := {
  _id : string;
  contact : string;
  location : string;
  time : string;
  date : string;
  description : string;
  photo : option string
}.

(** What the feature-extraction pipeline resolves to: a batch of vectors,
    of which [computeTextSimilarity] reads element [0]. *)
Definition Embeddings := list (list float).

(** The state a request runs against: the stored found items, whether the
    database query rejects, and the texts passed to the embedding model so
    far (one entry per call). *)
Record World := {
  foundItemCollection : list FoundItem;
  findRejects : option string;
  modelCalls : list string
}.

Definition logModelCall (text : string) (w : World) : World :=
  {| foundItemCollection := foundItemCollection w;
     findRejects := findRejects w;
     modelCalls := modelCalls w ++ [text] |}.

(** Asynchronous code that may throw. *)
Definition Async (A : Type) : Type := World -> Completion A * World.

Definition ret {A : Type} (value : A) : Async A := fun w => (Normal value, w).

Definition throw {A : Type} (message : string) : Async A := fun w => (Throw message, w).

Definition bind {A B : Type} (m : Async A) (k : A -> Async B) : Async B :=
  fun w =>
    match m w with
    | (Normal value, w') => k value w'
    | (Throw message, w') => (Throw message, w')
    end.

Definition tryCatch {A : Type} (body : Async A) (handler : string -> Async A) : Async A :=
  fun w =>
    match body w with
    | (Normal value, w') => (Normal value, w')
    | (Throw message, w') => handler message w'
    end.

Notation "x <- m ;; k" := (bind m (fun x => k))
  (at level 100, m at next level, right associativity).

(** An HTTP request, of which the handler reads [req.query], and the
    response [res.status(...).json(...)] sends. *)
Record Request := { query : gmap string string }.

Inductive Body : Type :=
| Message (message : string)
| ErrorMessage (message error : string)
| Items (items : list FoundItem).

Record Response := { status : nat; json : Body }.

Section Matching.
(** The embedding model: [similarityModel(text)] resolves to embeddings or
    rejects.  Its answer is taken to depend on the text alone. *)
Variable similarityModel : string -> Completion Embeddings.

(** [await similarityModel(text)] *)
Definition awaitSimilarityModel (text : string) : Async Embeddings :=
  fun w => (similarityModel text, logModelCall text w).

(** [await FoundItem.find()] *)
Definition FoundItem_find : Async (list FoundItem) :=
  fun w =>
    match findRejects w with
    | Some message => (Throw message, w)
    | None => (Normal (foundItemCollection w), w)
    end.

(** [computeTextSimilarity] (app.js, lines 299-317).  [embeddings[0]] is
    [undefined] when the batch is empty, and [cosineSimilarity] then
    throws a TypeError ([a.reduce], [b[index]] or [b.reduce] on
    [undefined]), which the [catch] turns into 0 like any other error. *)
Definition computeTextSimilarity (text1 text2 : string) : Async float :=
  tryCatch
    (embeddings1 <- awaitSimilarityModel text1 ;;
     embeddings2 <- awaitSimilarityModel text2 ;;
     match embeddings1 !! 0%nat, embeddings2 !! 0%nat with
     | Some a, Some b => ret (cosineSimilarity a b)
     | _, _ => throw "Cannot read properties of undefined"
     end)
    (fun error => ret 0%float).

(** The candidate loop of the handler (lines 330-338): [matchedItems]
    grows by [push].  The source writes the loop inside the handler with
    the literal 0.5 in the comparison [similarity >= 0.5]; here the cutoff
    is the argument [threshold], which the handler below fixes to that
    literal. *)
Fixpoint matchLoop (threshold : float) (lostItemDescription : string)
    (foundItems matchedItems : list FoundItem) : Async (list FoundItem) :=
  match foundItems with
  | [] => ret matchedItems
  | item :: rest =>
      similarity <- computeTextSimilarity lostItemDescription (description item) ;;
      matchLoop threshold lostItemDescription rest
        (if (threshold <=? similarity)%float then matchedItems ++ [item] else matchedItems)
  end.

(** The literal of line 335. *)
Definition similarityThreshold : float := 0.5%float.

(** [app.post('/matchingfounditems', ...)] (lines 319-345).  A missing
    parameter and the empty string are the falsy descriptions. *)
Definition matchingfounditems (req : Request) : Async Response :=
  tryCatch
    (match query req !! "lostItemDescription" with
     | None | Some "" =>
         ret {| status := 400; json := Message "Lost item description is required" |}
     | Some lostItemDescription =>
         foundItems <- FoundItem_find ;;
         matchedItems <- matchLoop similarityThreshold lostItemDescription foundItems [] ;;
         ret {| status := 200; json := Items matchedItems |}
     end)
    (fun error =>
       ret {| status := 500;
              json := ErrorMessage "Error processing matching items" error |}).
End Matching.

(** ** Reading the handler as pure functions *)

(** The world after the model was called with [texts], in that order. *)
Definition logModelCalls (texts : list string) (w : World) : World :=
  {| foundItemCollection := foundItemCollection w;
     findRejects := findRejects w;
     modelCalls := modelCalls w ++ texts |}.

(** The number [computeTextSimilarity] resolves to. *)
Definition similarityOf (similarityModel : string -> Completion Embeddings)
    (text1 text2 : string) : float :=
  match similarityModel text1, similarityModel text2 with
  | Normal embeddings1, Normal embeddings2 =>
      match embeddings1 !! 0%nat, embeddings2 !! 0%nat with
      | Some a, Some b => cosineSimilarity a b
      | _, _ => 0%float
      end
  | _, _ => 0%float
  end.

(** The model calls [computeTextSimilarity] makes: the second [await] is
    not reached when the first rejects. *)
Definition callsOf (similarityModel : string -> Completion Embeddings)
    (text1 text2 : string) : list string :=
  match similarityModel text1 with
  | Normal _ => [text1; text2]
  | Throw _ => [text1]
  end.

(** Whether one of the steps inside the [try] of [computeTextSimilarity]
    throws. *)
Definition throwsInside (similarityModel : string -> Completion Embeddings)
    (text1 text2 : string) : bool :=
  match similarityModel text1, similarityModel text2 with
  | Normal embeddings1, Normal embeddings2 =>
      match embeddings1 !! 0%nat, embeddings2 !! 0%nat with
      | Some _, Some _ => false
      | _, _ => true
      end
  | _, _ => true
  end.

(** The items the candidate loop keeps, in the order it meets them. *)
Definition keptItems (similarityModel : string -> Completion Embeddings)
    (threshold : float) (lostItemDescription : string)
    (foundItems : list FoundItem) : list FoundItem :=
  List.filter
    (fun item =>
       (threshold <=? similarityOf similarityModel lostItemDescription
                        (description item))%float)
    foundItems.

(** The model calls of the whole candidate loop, in order. *)
Definition loopCalls (similarityModel : string -> Completion Embeddings)
    (lostItemDescription : string) (foundItems : list FoundItem) : list string :=
  flat_map
    (fun item => callsOf similarityModel lostItemDescription (description item))
    foundItems.

(** Calls one candidate costs: the query text is embedded again for every
    candidate, and the candidate's text only when that succeeded. *)
Definition callsPerCandidate (similarityModel : string -> Completion Embeddings)
    (lostItemDescription : string) : nat :=
  match similarityModel lostItemDescription with
  | Normal _ => 2
  | Throw _ => 1
  end.

(** The list a response carries; the error responses carry none. *)
Definition returnedItems (r : Response) : list FoundItem :=
  match json r with
  | Items items => items
  | _ => []
  end.

(** The score sequence of a result list, and the test that it descends. *)
Fixpoint scoreDescending (scores : list float) : bool :=
  match scores with
  | first :: (second :: _) as rest => (second <=? first)%float && scoreDescending rest
  | _ => true
  end.

(** Following the spec's words (section 3, "trimmed"): the query text with
    leading and trailing white space removed.  The handler has no such
    step. *)
Definition isWhiteSpace (c : ascii) : bool :=
  match c with
  | " "%char | "009"%char | "010"%char | "013"%char => true
  | _ => false
  end.

Fixpoint trimStart (s : string) : string :=
  match s with
  | String c rest => if isWhiteSpace c then trimStart rest else s
  | EmptyString => EmptyString
  end.

Definition spec_normalize (s : string) : string :=
  String.rev (trimStart (String.rev (trimStart s))).

(** ** A small collection to run the handler on *)

Module Demo.
Definition item (ident desc : string) : FoundItem :=
  {| _id := ident; contact := "0300"; location := "library"; time := "10:00";
     date := "2024-01-01"; description := desc; photo := None |}.

Definition F1 := item "f1" "black leather wallet".
Definition F2 := item "f2" "red backpack".
Definition F3 := item "f3" "brown leather wallet with cards".
Definition F4 := item "f4" "unreadable".

(** An embedding model on two-dimensional vectors that rejects two
    texts and embeds the text "blank" to the zero vector. *)
Definition model (text : string) : Completion Embeddings :=
  if String.eqb text "black leather wallet" then Normal [[3; 4]]%float
  else if String.eqb text "red backpack" then Normal [[0; 1]]%float
  else if String.eqb text "unreadable" then Throw "model unavailable"
  else if String.eqb text "offline" then Throw "model unavailable"
  else if String.eqb text "blank" then Normal [[0; 0]]%float
  else Normal [[1; 0]]%float.

Definition world (items : list FoundItem) : World :=
  {| foundItemCollection := items; findRejects := None; modelCalls := [] |}.

Definition request (desc : string) : Request :=
  {| query := {[ "lostItemDescription" := desc ]} |}.

Definition requestWithThreshold (desc threshold : string) : Request :=
  {| query := <[ "threshold" := threshold ]> {[ "lostItemDescription" := desc ]} |}.
End Demo.

(** ** More of the similarity computation *)

(** The sum [dotProduct] accumulates while [b] has a component for every
    index visited: a left fold over the paired components. *)
Fixpoint dotFrom {num : Type} `{JsNumber num} (acc : num) (a b : list num) : num :=
  match a, b with
  | value :: a', other :: b' => dotFrom (num_add acc (num_mul value other)) a' b'
  | _, _ => acc
  end.

(** A model that embeds one text to a vector of a single component. *)
Module Mixed.
Definition model (text : string) : Completion Embeddings :=
  if String.eqb text "pen" then Normal [[1]]%float
  else Normal [[1; 0]]%float.

Definition pen : FoundItem :=
  {| _id := "p1"; contact := "0300"; location := "hall"; time := "09:00";
     date := "2024-02-02"; description := "pen"; photo := None |}.
End Mixed.

(** ** JavaScript values of the account and report routes *)

(** A JavaScript string is its sequence of UTF-16 code units. *)
Definition JsStr := list N.

(** The code units of a text written in ASCII. *)
Definition units (s : string) : JsStr := map N_of_ascii (list_ascii_of_string s).

(** The values a parsed request body, a Mongoose document or an external
    call can hold. *)
#[warnings="-register-all"] Inductive JsValue : Type :=
| JsUndefined
| JsNull
| JsBool (b : bool)
| JsNum (n : float)
| JsString (s : JsStr)
| JsBuffer (bytes : list N)
| JsDate (timeValue : float)
| JsArray (items : list JsValue)
| JsObject (props : list (string * JsValue)).

(** [ToBoolean]: what [!value] negates. *)
Definition toBoolean (v : JsValue) : bool :=
  match v with
  | JsUndefined | JsNull => false
  | JsBool b => b
  | JsNum n => negb ((n =? 0)%float || is_nan n)
  | JsString [] => false
  | _ => true
  end.

(** Reading a property of an object: [undefined] when it is absent. *)
Definition field (object : gmap string JsValue) (name : string) : JsValue :=
  default JsUndefined (object !! name).

(** ** Regular expressions *)

(** The regular expressions of the routes use character classes,
    concatenation and [+], and are anchored at both ends, so [test] decides
    membership of the whole string in a regular language. *)
Inductive Regex : Type :=
| RNone
| REmpty
| RClass (member : N -> bool)
| RCat (r1 r2 : Regex)
| RAlt (r1 r2 : Regex)
| RStar (r : Regex).

Definition RPlus (r : Regex) : Regex := RCat r (RStar r).

Fixpoint nullable (r : Regex) : bool :=
  match r with
  | RNone => false
  | REmpty => true
  | RClass _ => false
  | RCat r1 r2 => nullable r1 && nullable r2
  | RAlt r1 r2 => nullable r1 || nullable r2
  | RStar _ => true
  end.

(** The derivative of [r] by the code unit [c]. *)
Fixpoint derive (c : N) (r : Regex) : Regex :=
  match r with
  | RNone | REmpty => RNone
  | RClass member => if member c then REmpty else RNone
  | RCat r1 r2 =>
      if nullable r1
      then RAlt (RCat (derive c r1) r2) (derive c r2)
      else RCat (derive c r1) r2
  | RAlt r1 r2 => RAlt (derive c r1) (derive c r2)
  | RStar r1 => RCat (derive c r1) (RStar r1)
  end.

(** [regex.test(s)] for a pattern anchored with [^] and [$]. *)
Fixpoint testWhole (r : Regex) (s : JsStr) : bool :=
  match s with
  | [] => nullable r
  | c :: rest => testWhole (derive c r) rest
  end.

(** The strings a regular expression denotes. *)
Inductive Matches : Regex -> JsStr -> Prop :=
| MatchesEmpty : Matches REmpty []
| MatchesClass member c : member c = true -> Matches (RClass member) [c]
| MatchesCat r1 r2 s1 s2 :
    Matches r1 s1 -> Matches r2 s2 -> Matches (RCat r1 r2) (s1 ++ s2)
| MatchesAltL r1 r2 s : Matches r1 s -> Matches (RAlt r1 r2) s
| MatchesAltR r1 r2 s : Matches r2 s -> Matches (RAlt r1 r2) s
| MatchesStarNil r : Matches (RStar r) []
| MatchesStarApp r s1 s2 :
    Matches r s1 -> Matches (RStar r) s2 -> Matches (RStar r) (s1 ++ s2).

(** The class [\s]: the white space and line terminator code units of
    ECMAScript. *)
Definition isWhiteSpaceUnit (c : N) : bool :=
  (N.eqb c 9 || N.eqb c 10 || N.eqb c 11 || N.eqb c 12 || N.eqb c 13
   || N.eqb c 32 || N.eqb c 160 || N.eqb c 5760
   || (N.leb 8192 c && N.leb c 8202)
   || N.eqb c 8232 || N.eqb c 8233 || N.eqb c 8239 || N.eqb c 8287
   || N.eqb c 12288 || N.eqb c 65279)%bool.

Definition atSign : N := 64.
Definition fullStop : N := 46.

(** The class [[^\s@]]. *)
Definition notSpaceNorAt (c : N) : bool :=
  negb (isWhiteSpaceUnit c || N.eqb c atSign).

(** [emailRegex = /^[^\s@]+@[^\s@]+\.[^\s@]+$/] of [/register]. *)
Definition emailRegex : Regex :=
  RCat (RPlus (RClass notSpaceNorAt))
    (RCat (RClass (N.eqb atSign))
       (RCat (RPlus (RClass notSpaceNorAt))
          (RCat (RClass (N.eqb fullStop))
             (RPlus (RClass notSpaceNorAt))))).

(** ** Programs over external calls *)

(** A Mongoose document, by property name, and the file multer stored for
    [upload.single('photo')]. *)
Definition Doc := gmap string JsValue.

Record Upload := { path : JsStr; mimetype : JsStr }.

(** The calls the routes make outside this file: Mongoose models, bcrypt,
    the file system and the [Date] constructor.  What they answer is left
    to the environment; [save] answers the document as it is once saved,
    which is what the handler reads afterwards. *)
Inductive Call : Type :=
| UserFindOne (email : JsValue)
| UserNew (name email mobile password : JsValue)
| BcryptCompare (data encrypted : JsValue)
| FoundItemNew (contact location time date description photo : JsValue)
| LostItemNew (contact location time date description category : JsValue)
| DateNew (value : JsValue)
| DocSave (doc : Doc)
| ReadFileSync (file : JsStr)
| UnlinkSync (file : JsStr).

Definition Answer (c : Call) : Type :=
  match c with
  | UserFindOne _ => option Doc
  | UserNew _ _ _ _ => Doc
  | BcryptCompare _ _ => bool
  | FoundItemNew _ _ _ _ _ _ => Doc
  | LostItemNew _ _ _ _ _ _ => Doc
  | DateNew _ => JsValue
  | DocSave _ => Doc
  | ReadFileSync _ => list N
  | UnlinkSync _ => unit
  end.

(** A handler body: it returns, throws, or makes a call and goes on with
    what the call resolved to or threw. *)
Inductive Prog (A : Type) : Type :=
| Ret (value : A)
| Raise (message : string)
| Do (c : Call) (k : Completion (Answer c) -> Prog A).
Arguments Ret {A} value.
Arguments Raise {A} message.
Arguments Do {A} c k.

(** A call whose error propagates ([await] outside any inner [try]). *)
Definition call (c : Call) : Prog (Answer c) :=
  Do c (fun answer =>
          match answer with
          | Normal value => Ret value
          | Throw message => Raise message
          end).

Fixpoint andThen {A B : Type} (p : Prog A) (k : A -> Prog B) : Prog B :=
  match p with
  | Ret value => k value
  | Raise message => Raise message
  | Do c k' => Do c (fun answer => andThen (k' answer) k)
  end.

Fixpoint catching {A : Type} (p : Prog A) (handler : string -> Prog A) : Prog A :=
  match p with
  | Ret value => Ret value
  | Raise message => handler message
  | Do c k => Do c (fun answer => catching (k answer) handler)
  end.

Notation "x <~ p ;; k" := (andThen p (fun x => k))
  (at level 100, p at next level, right associativity).

(** Lifting a pure step that may throw. *)
Definition lift {A : Type} (c : Completion A) : Prog A :=
  match c with
  | Normal value => Ret value
  | Throw message => Raise message
  end.

(** The environment answers every call, knowing the calls made before. *)
Definition Env := forall (history : list Call) (c : Call), Completion (Answer c).

(** Running a program: the completion and the calls made, in order. *)
Fixpoint run {A : Type} (env : Env) (p : Prog A) (history : list Call)
    : Completion A * list Call :=
  match p with
  | Ret value => (Normal value, history)
  | Raise message => (Throw message, history)
  | Do c k => run env (k (env history c)) (history ++ [c])
  end.

(** ** The account and report routes *)

Record HttpRequest := { body : gmap string JsValue; file : option Upload }.

(** A value of the object given to [res.json]. *)
Inductive ReplyValue : Type :=
| Text (s : string)
| Value (v : JsValue)
| Document (doc : Doc)
| Object (props : list (string * JsValue)).

Record Reply := { code : nat; sent : list (string * ReplyValue) }.

Section Routes.
(** [ToString] of a value that is not a string (numbers, booleans, arrays,
    objects): the language's conversion, which may throw. *)
Variable builtinToString : JsValue -> Completion JsStr.

Definition toJsString (v : JsValue) : Completion JsStr :=
  match v with
  | JsString s => Normal s
  | _ => builtinToString v
  end.

(** [regex.test(value)]: the argument is converted to a string first. *)
Definition regexTest (r : Regex) (v : JsValue) : Completion bool :=
  match toJsString v with
  | Normal s => Normal (testWhole r s)
  | Throw message => Throw message
  end.

(** [app.post('/register', ...)] (lines 88-145). *)
Definition register (req : HttpRequest) : Prog Reply :=
  catching
    (let name := field (body req) "name" in
     let email := field (body req) "email" in
     let mobile := field (body req) "mobile" in
     let password := field (body req) "password" in
     if negb (toBoolean name) || negb (toBoolean email)
        || negb (toBoolean mobile) || negb (toBoolean password)
     then Ret {| code := 400;
                 sent := [("status", Text "error");
                          ("message", Text "All fields are required")] |}
     else
       valid <~ lift (regexTest emailRegex email) ;;
       if negb valid
       then Ret {| code := 400;
                   sent := [("status", Text "error");
                            ("message", Text "Invalid email format")] |}
       else
         existingUser <~ call (UserFindOne email) ;;
         match existingUser with
         | Some _ =>
             Ret {| code := 409;
                    sent := [("status", Text "error");
                             ("message", Text "User already exists")] |}
         | None =>
             newUser <~ call (UserNew name email mobile password) ;;
             _ <~ call (DocSave newUser) ;;
             Ret {| code := 201;
                    sent := [("status", Text "success");
                             ("message", Text "User registered successfully")] |}
         end)
    (fun error =>
       Ret {| code := 500;
              sent := [("status", Text "error");
                       ("message", Text "Server error during registration");
                       ("details", Text error)] |}).

(** [app.post('/login', ...)] (lines 150-172). *)
Definition login (req : HttpRequest) : Prog Reply :=
  catching
    (let email := field (body req) "email" in
     let password := field (body req) "password" in
     user <~ call (UserFindOne email) ;;
     match user with
     | None => Ret {| code := 404; sent := [("message", Text "User not found")] |}
     | Some user =>
         isPasswordValid <~ call (BcryptCompare password (field user "password")) ;;
         if negb isPasswordValid
         then Ret {| code := 401; sent := [("message", Text "Invalid credentials")] |}
         else Ret {| code := 200; sent := [("message", Text "Login successful")] |}
     end)
    (fun error => Ret {| code := 500; sent := [("message", Text "Server error")] |}).

(** [app.post('/reportfound', ...)] (lines 174-213).  The object literal
    given to [new FoundItem] is evaluated first, so the photo is read before
    the document is built. *)
Definition reportfound (req : HttpRequest) : Prog Reply :=
  catching
    (let contact := field (body req) "contact" in
     let location := field (body req) "location" in
     let time := field (body req) "time" in
     let date := field (body req) "date" in
     let description := field (body req) "description" in
     if negb (toBoolean contact) || negb (toBoolean location)
        || negb (toBoolean time) || negb (toBoolean date)
        || negb (toBoolean description)
     then Ret {| code := 400;
                 sent := [("status", Text "error");
                          ("message",
                           Text "All fields (contact, location, time, date, and description) are required")] |}
     else
       let photoPath :=
         match file req with
         | Some upload => JsString (path upload)
         | None => JsNull
         end in
       photo <~ (match photoPath with
                 | JsString (c :: rest) =>
                     bytes <~ call (ReadFileSync (c :: rest)) ;; Ret (JsBuffer bytes)
                 | _ => Ret JsNull
                 end) ;;
       foundItem <~ call (FoundItemNew contact location time date description photo) ;;
       saved <~ call (DocSave foundItem) ;;
       Ret {| code := 201;
              sent := [("status", Text "success");
                       ("message", Text "Found item reported successfully");
                       ("foundItem", Document saved)] |})
    (fun error =>
       Ret {| code := 500;
              sent := [("status", Text "error");
                       ("message", Text "Server error  reporting found item");
                       ("details", Text error)] |}).

(** The names [/reportlost] pushes to [missingFields], in the order of its
    six tests. *)
Definition missingFields (fields : gmap string JsValue) : list string :=
  (if negb (toBoolean (field fields "contact")) then ["contact"] else [])
  ++ (if negb (toBoolean (field fields "location")) then ["location"] else [])
  ++ (if negb (toBoolean (field fields "time")) then ["time"] else [])
  ++ (if negb (toBoolean (field fields "date")) then ["date"] else [])
  ++ (if negb (toBoolean (field fields "description")) then ["description"] else [])
  ++ (if negb (toBoolean (field fields "category")) then ["category"] else []).

(** The photo block of [/reportlost] (lines 257-268): an inner [try] whose
    [catch] only logs.  The assignments made before a throw stay made. *)
Definition attachPhoto (upload : Upload) (lostItem : Doc) : Prog Doc :=
  Do (ReadFileSync (path upload))
    (fun answer =>
       match answer with
       | Throw _ => Ret lostItem
       | Normal bytes =>
           let withPhoto :=
             <[ "photoContentType" := JsString (mimetype upload) ]>
               (<[ "photo" := JsBuffer bytes ]> lostItem) in
           Do (UnlinkSync (path upload)) (fun _ => Ret withPhoto)
       end).

(** [app.post('/reportlost', ...)] (lines 224-296). *)
Definition reportlost (req : HttpRequest) : Prog Reply :=
  catching
    (let contact := field (body req) "contact" in
     let location := field (body req) "location" in
     let time := field (body req) "time" in
     let date := field (body req) "date" in
     let description := field (body req) "description" in
     let category := field (body req) "category" in
     match missingFields (body req) with
     | _ :: _ =>
         Ret {| code := 400;
                sent := [("status", Text "error");
                         ("message",
                          Text ("Missing required fields: "
                                +:+ String.concat ", " (missingFields (body req))))] |}
     | [] =>
         timeValue <~ call (DateNew time) ;;
         dateValue <~ call (DateNew date) ;;
         lostItem <~ call (LostItemNew contact location timeValue dateValue
                             description category) ;;
         lostItem <~ (match file req with
                      | Some upload => attachPhoto upload lostItem
                      | None => Ret lostItem
                      end) ;;
         saved <~ call (DocSave lostItem) ;;
         Ret {| code := 201;
                sent := [("status", Text "success");
                         ("message", Text "Lost item reported successfully");
                         ("lostItem",
                          Object [("_id", field saved "_id");
                                  ("contact", field saved "contact");
                                  ("location", field saved "location");
                                  ("time", field saved "time");
                                  ("date", field saved "date");
                                  ("description", field saved "description");
                                  ("category", field saved "category");
                                  ("hasPhoto", JsBool (toBoolean (field saved "photo")))])] |}
     end)
    (fun error =>
       Ret {| code := 500;
              sent := [("status", Text "error");
                       ("message", Text "Server error while reporting lost item");
                       ("details", Text error)] |}).
End Routes.

(** Running a handler from the start of a request. *)
Definition exec {A : Type} (env : Env) (p : Prog A) : Completion A * list Call :=
  run env p [].

(** ** Environments and requests to run the routes on *)

Module Desk.
(** A conversion for the values that are not strings. *)
Definition builtinToString (v : JsValue) : Completion JsStr :=
  match v with
  | JsObject _ => Normal (units "[object Object]")
  | JsBool true => Normal (units "true")
  | JsBool false => Normal (units "false")
  | _ => Normal (units "null")
  end.

Definition storedUser : Doc :=
  {[ "email" := JsString (units "ali@example.com");
     "password" := JsString (units "$2b$10$hash") ]}.

(** Every call succeeds; no user is stored yet. *)
Definition fresh : Env :=
  fun _ c =>
    match c return Completion (Answer c) with
    | UserFindOne _ => Normal None
    | UserNew name email mobile password =>
        Normal {[ "name" := name; "email" := email; "mobile" := mobile;
                  "password" := password ]}
    | BcryptCompare _ _ => Normal false
    | FoundItemNew contact location time date description photo =>
        Normal {[ "description" := description; "photo" := photo ]}
    | LostItemNew contact location time date description category =>
        Normal {[ "description" := description; "category" := category ]}
    | DateNew _ => Normal (JsDate 0)
    | DocSave doc => Normal doc
    | ReadFileSync _ => Normal [255; 216]%N
    | UnlinkSync _ => Normal tt
    end.

(** As [fresh], with the user stored and the right password submitted. *)
Definition registered : Env :=
  fun history c =>
    match c return Completion (Answer c) with
    | UserFindOne _ => Normal (Some storedUser)
    | BcryptCompare _ _ => Normal true
    | other => fresh history other
    end.

(** As [fresh], with a file system that fails. *)
Definition brokenDisk : Env :=
  fun history c =>
    match c return Completion (Answer c) with
    | ReadFileSync _ => Throw "ENOENT: no such file or directory"
    | UnlinkSync _ => Throw "ENOENT: no such file or directory"
    | other => fresh history other
    end.

(** As [fresh], with a file that can be read but not deleted. *)
Definition readOnlyDisk : Env :=
  fun history c =>
    match c return Completion (Answer c) with
    | UnlinkSync _ => Throw "EPERM: operation not permitted"
    | other => fresh history other
    end.

Definition text (s : string) : JsValue := JsString (units s).

Definition account : HttpRequest :=
  {| body := {[ "name" := text "Ali"; "email" := text "ali@example.com";
                "mobile" := text "03001234567"; "password" := text "secret" ]};
     file := None |}.

Definition accountWithoutAt : HttpRequest :=
  {| body := {[ "name" := text "Ali"; "email" := text "ali.example.com";
                "mobile" := text "03001234567"; "password" := text "secret" ]};
     file := None |}.

Definition accountWithoutMobile : HttpRequest :=
  {| body := {[ "name" := text "Ali"; "email" := text "ali@example.com";
                "password" := text "secret" ]};
     file := None |}.

Definition photoUpload : Upload :=
  {| path := units "uploads/1700000000000.jpg"; mimetype := units "image/jpeg" |}.

Definition report (upload : option Upload) : HttpRequest :=
  {| body := {[ "contact" := text "0300"; "location" := text "library";
                "time" := text "2024-01-01T10:00:00.000Z";
                "date" := text "2024-01-01T00:00:00.000Z";
                "description" := text "black leather wallet";
                "category" := text "Accessories" ]};
     file := upload |}.

Definition reportWithoutCategory : HttpRequest :=
  {| body := {[ "contact" := text "0300"; "location" := text "library";
                "time" := text "2024-01-01T10:00:00.000Z";
                "date" := text "2024-01-01T00:00:00.000Z";
                "description" := text "black leather wallet" ]};
     file := None |}.

Definition reportWithoutPlaceAndDate : HttpRequest :=
  {| body := {[ "contact" := text "0300"; "location" := text "";
                "time" := text "2024-01-01T10:00:00.000Z";
                "description" := text "black leather wallet";
                "category" := text "Accessories" ]};
     file := None |}.
End Desk.

(** The calls to the file system. *)
Definition isFileSystemCall (c : Call) : bool :=
  match c with
  | ReadFileSync _ | UnlinkSync _ => true
  | _ => false
  end.

(** The six field names of a report, in the order [/reportlost] tests
    them. *)
Definition reportFieldNames : list string :=
  ["contact"; "location"; "time"; "date"; "description"; "category"].

(** ** The handler, step by step *)

Example cosine_3_4 :
  cosineSimilarity [1; 0]%float [3; 4]%float = 0x1.3333333333333p-1%float.
Proof. reflexivity. Qed.

Example demo_run :
  matchingfounditems Demo.model (Demo.request "lost a leather wallet")
    (Demo.world [Demo.F1; Demo.F2; Demo.F3])
  = (Normal {| status := 200; json := Items [Demo.F1; Demo.F3] |},
     logModelCalls
       ["lost a leather wallet"; "black leather wallet";
        "lost a leather wallet"; "red backpack";
        "lost a leather wallet"; "brown leather wallet with cards"]
       (Demo.world [Demo.F1; Demo.F2; Demo.F3])).
Proof. vm_compute. reflexivity. Qed.

Section Runs.
Variable similarityModel : string -> Completion Embeddings.

Lemma logModelCalls_nil w : logModelCalls [] w = w.
Proof. destruct w; unfold logModelCalls; simpl. by rewrite app_nil_r. Qed.

Lemma logModelCalls_app texts1 texts2 w :
  logModelCalls texts2 (logModelCalls texts1 w) = logModelCalls (texts1 ++ texts2) w.
Proof. unfold logModelCalls; simpl. by rewrite app_assoc. Qed.

(** [computeTextSimilarity] always resolves, to [similarityOf], after the
    calls of [callsOf]. *)
Lemma computeTextSimilarity_run text1 text2 w :
  computeTextSimilarity similarityModel text1 text2 w
  = (Normal (similarityOf similarityModel text1 text2),
     logModelCalls (callsOf similarityModel text1 text2) w).
Proof.
  unfold computeTextSimilarity, tryCatch, bind, awaitSimilarityModel,
    similarityOf, callsOf, ret, throw.
  assert (Hlog : logModelCall text2 (logModelCall text1 w)
                 = logModelCalls [text1; text2] w).
  { unfold logModelCall, logModelCalls; simpl. by rewrite <- app_assoc. }
  destruct (similarityModel text1) as [embeddings1|message1]; simpl; [|done].
  destruct (similarityModel text2) as [embeddings2|message2]; simpl;
    [|by rewrite Hlog].
  destruct (embeddings1 !! 0%nat) as [a|], (embeddings2 !! 0%nat) as [b|];
    by rewrite Hlog.
Qed.

Lemma similarityOf_throws text1 text2 :
  throwsInside similarityModel text1 text2 = true ->
  similarityOf similarityModel text1 text2 = 0%float.
Proof.
  unfold throwsInside, similarityOf.
  destruct (similarityModel text1) as [embeddings1|]; [|done].
  destruct (similarityModel text2) as [embeddings2|]; [|done].
  destruct (embeddings1 !! 0%nat), (embeddings2 !! 0%nat); done.
Qed.

(** The loop pushes the kept items behind what [matchedItems] holds. *)
Lemma matchLoop_run threshold lostItemDescription foundItems matchedItems w :
  matchLoop similarityModel threshold lostItemDescription foundItems matchedItems w
  = (Normal (matchedItems
             ++ keptItems similarityModel threshold lostItemDescription foundItems),
     logModelCalls (loopCalls similarityModel lostItemDescription foundItems) w).
Proof.
  revert matchedItems w.
  induction foundItems as [|item rest IH]; intros matchedItems w; simpl.
  - by rewrite app_nil_r, logModelCalls_nil.
  - unfold bind at 1. rewrite computeTextSimilarity_run, IH.
    rewrite logModelCalls_app. f_equal. f_equal.
    destruct (_ <=? _)%float; [|done].
    by rewrite <- app_assoc.
Qed.

(** The three ways the handler answers. *)
Lemma matchingfounditems_400 req w :
  query req !! "lostItemDescription" = None
  \/ query req !! "lostItemDescription" = Some "" ->
  matchingfounditems similarityModel req w
  = (Normal {| status := 400; json := Message "Lost item description is required" |}, w).
Proof.
  intros [Hq|Hq]; unfold matchingfounditems, tryCatch; by rewrite Hq.
Qed.

Lemma matchingfounditems_500 req w lostItemDescription message :
  query req !! "lostItemDescription" = Some lostItemDescription ->
  lostItemDescription <> "" ->
  findRejects w = Some message ->
  matchingfounditems similarityModel req w
  = (Normal {| status := 500;
               json := ErrorMessage "Error processing matching items" message |}, w).
Proof.
  intros Hq Hne Hfind. unfold matchingfounditems, tryCatch. rewrite Hq.
  destruct lostItemDescription as [|c rest]; [done|].
  unfold bind, FoundItem_find. by rewrite Hfind.
Qed.

Lemma matchingfounditems_200 req w lostItemDescription :
  query req !! "lostItemDescription" = Some lostItemDescription ->
  lostItemDescription <> "" ->
  findRejects w = None ->
  matchingfounditems similarityModel req w
  = (Normal {| status := 200;
               json := Items (keptItems similarityModel similarityThreshold
                                lostItemDescription (foundItemCollection w)) |},
     logModelCalls
       (loopCalls similarityModel lostItemDescription (foundItemCollection w)) w).
Proof.
  intros Hq Hne Hfind. unfold matchingfounditems, tryCatch. rewrite Hq.
  destruct lostItemDescription as [|c rest]; [done|].
  unfold bind at 1. unfold FoundItem_find. rewrite Hfind.
  unfold bind. by rewrite matchLoop_run.
Qed.

(** Whatever the request, the handler answers and leaves the collection
    as it was; its list is a filtering of the collection. *)
Lemma matchingfounditems_cases req w :
  exists r texts,
    matchingfounditems similarityModel req w = (Normal r, logModelCalls texts w)
    /\ exists threshold lostItemDescription,
         sublist (returnedItems r)
           (keptItems similarityModel threshold lostItemDescription (foundItemCollection w)).
Proof.
  destruct (query req !! "lostItemDescription") as [lostItemDescription|] eqn:Hq.
  - destruct (decide (lostItemDescription = "")) as [->|Hne].
    + eexists _, []. rewrite logModelCalls_nil.
      split; [apply matchingfounditems_400; by right|].
      exists 0%float, "". apply sublist_nil_l.
    + destruct (findRejects w) as [message|] eqn:Hfind.
      * eexists _, []. rewrite logModelCalls_nil.
        split; [by eapply matchingfounditems_500|].
        exists 0%float, "". apply sublist_nil_l.
      * eexists _, _. split; [by eapply matchingfounditems_200|].
        by exists similarityThreshold, lostItemDescription.
  - eexists _, []. rewrite logModelCalls_nil.
    split; [apply matchingfounditems_400; by left|].
    exists 0%float, "". apply sublist_nil_l.
Qed.

Lemma keptItems_sublist threshold lostItemDescription foundItems :
  sublist (keptItems similarityModel threshold lostItemDescription foundItems) foundItems.
Proof.
  unfold keptItems.
  induction foundItems as [|item rest IH]; simpl; [constructor|].
  destruct (_ <=? _)%float; by constructor.
Qed.

Lemma elem_of_keptItems threshold lostItemDescription foundItems item :
  item ∈ keptItems similarityModel threshold lostItemDescription foundItems
  <-> item ∈ foundItems
      /\ (threshold <=? similarityOf similarityModel lostItemDescription (description item))%float
         = true.
Proof.
  unfold keptItems. rewrite !list_elem_of_In. apply filter_In.
Qed.

Lemma length_loopCalls lostItemDescription foundItems :
  length (loopCalls similarityModel lostItemDescription foundItems)
  = (length (callsOf similarityModel lostItemDescription "") * length foundItems)%nat.
Proof.
  unfold loopCalls, callsOf.
  induction foundItems as [|item rest IH]; simpl; [lia|].
  rewrite length_app, IH.
  destruct (similarityModel lostItemDescription); simpl; lia.
Qed.
End Runs.

(** ** Model calls per request *)

(** C1, as the spec states it, fails: on a collection of three candidates
    the handler calls the model six times, the query text three times among
    them. *)
Lemma provider_calls_six_for_three_candidates :
  modelCalls
    (matchingfounditems Demo.model (Demo.request "lost a leather wallet")
       (Demo.world [Demo.F1; Demo.F2; Demo.F3])).2
  = ["lost a leather wallet"; "black leather wallet";
     "lost a leather wallet"; "red backpack";
     "lost a leather wallet"; "brown leather wallet with cards"]
  /\ length
       (modelCalls
          (matchingfounditems Demo.model (Demo.request "lost a leather wallet")
             (Demo.world [Demo.F1; Demo.F2; Demo.F3])).2)
     <> 1%nat.
Proof. vm_compute. split; [reflexivity|discriminate]. Qed.

(** C1 (amended): a match request that reaches the candidate loop calls the
    embedding model once per candidate for the query text and, when that
    call succeeds, once more for the candidate's description: 2n calls for n
    candidates (n when the query text's embedding fails), none of them
    cached. *)
Theorem provider_calls_per_candidate
    (similarityModel : string -> Completion Embeddings)
    (req : Request) (w : World) (lostItemDescription : string) :
  query req !! "lostItemDescription" = Some lostItemDescription ->
  lostItemDescription <> "" ->
  findRejects w = None ->
  modelCalls (matchingfounditems similarityModel req w).2
  = modelCalls w
    ++ flat_map
         (fun item =>
            match similarityModel lostItemDescription with
            | Normal _ => [lostItemDescription; description item]
            | Throw _ => [lostItemDescription]
            end)
         (foundItemCollection w)
  /\ length (modelCalls (matchingfounditems similarityModel req w).2)
     = (length (modelCalls w)
        + callsPerCandidate similarityModel lostItemDescription
          * length (foundItemCollection w))%nat.
Proof.
  intros Hq Hne Hfind.
  rewrite (matchingfounditems_200 _ _ _ _ Hq Hne Hfind); simpl.
  split; [reflexivity|].
  rewrite length_app. fold (loopCalls similarityModel lostItemDescription (foundItemCollection w)).
  rewrite length_loopCalls. unfold callsPerCandidate, callsOf.
  by destruct (similarityModel lostItemDescription).
Qed.

(** The amended C1 on the three-candidate collection. *)
Lemma provider_calls_per_candidate_witness :
  length
    (modelCalls
       (matchingfounditems Demo.model (Demo.request "lost a leather wallet")
          (Demo.world [Demo.F1; Demo.F2; Demo.F3])).2)
  = (0 + 2 * 3)%nat.
Proof.
  apply (provider_calls_per_candidate Demo.model
           (Demo.request "lost a leather wallet")
           (Demo.world [Demo.F1; Demo.F2; Demo.F3]) "lost a leather wallet").
  - vm_compute. reflexivity.
  - discriminate.
  - reflexivity.
Defined.

(** ** A failing query embedding *)

(** C2, as the spec states it, fails: when the model rejects the query text
    the handler answers 200 with an empty list. *)
Lemma query_embedding_failure_answers_200 :
  Demo.model "offline" = Throw "model unavailable"
  /\ (matchingfounditems Demo.model (Demo.request "offline")
        (Demo.world [Demo.F1; Demo.F2; Demo.F3])).1
     = Normal {| status := 200; json := Items [] |}.
Proof. vm_compute. split; reflexivity. Qed.

Lemma keptItems_query_throws similarityModel lostItemDescription message foundItems :
  similarityModel lostItemDescription = Throw message ->
  keptItems similarityModel similarityThreshold lostItemDescription foundItems = [].
Proof.
  intros Hthrow. unfold keptItems, similarityOf. rewrite Hthrow.
  induction foundItems as [|item rest IH]; [done|].
  simpl. exact IH.
Qed.

(** C2 (amended): if the embedding call for the query text fails, every
    candidate is scored 0 by the catch of [computeTextSimilarity] and the
    match request succeeds with status 200 and an empty list; the found-item
    collection is left unchanged. *)
Theorem query_embedding_failure_gives_empty_result
    (similarityModel : string -> Completion Embeddings)
    (req : Request) (w : World) (lostItemDescription message : string) :
  query req !! "lostItemDescription" = Some lostItemDescription ->
  lostItemDescription <> "" ->
  findRejects w = None ->
  similarityModel lostItemDescription = Throw message ->
  (matchingfounditems similarityModel req w).1
  = Normal {| status := 200; json := Items [] |}
  /\ foundItemCollection (matchingfounditems similarityModel req w).2
     = foundItemCollection w
  /\ findRejects (matchingfounditems similarityModel req w).2 = findRejects w.
Proof.
  intros Hq Hne Hfind Hthrow.
  rewrite (matchingfounditems_200 _ _ _ _ Hq Hne Hfind); simpl.
  by rewrite (keptItems_query_throws _ _ _ _ Hthrow).
Qed.

(** The amended C2 with the model offline for the query text. *)
Lemma query_embedding_failure_witness :
  (matchingfounditems Demo.model (Demo.request "offline")
     (Demo.world [Demo.F1; Demo.F2; Demo.F3])).1
  = Normal {| status := 200; json := Items [] |}
  /\ foundItemCollection
       (matchingfounditems Demo.model (Demo.request "offline")
          (Demo.world [Demo.F1; Demo.F2; Demo.F3])).2
     = [Demo.F1; Demo.F2; Demo.F3]
  /\ findRejects
       (matchingfounditems Demo.model (Demo.request "offline")
          (Demo.world [Demo.F1; Demo.F2; Demo.F3])).2
     = None.
Proof.
  apply (query_embedding_failure_gives_empty_result Demo.model
           (Demo.request "offline") (Demo.world [Demo.F1; Demo.F2; Demo.F3])
           "offline" "model unavailable").
  - vm_compute. reflexivity.
  - discriminate.
  - reflexivity.
  - reflexivity.
Defined.

(** ** The description guard *)

(** C6, as the spec states it, fails: a description of one space is empty
    once trimmed, yet the handler accepts it, calls the model and answers
    200. *)
Lemma blank_description_is_accepted :
  spec_normalize " " = ""
  /\ matchingfounditems Demo.model (Demo.request " ") (Demo.world [Demo.F1])
     = (Normal {| status := 200; json := Items [Demo.F1] |},
        logModelCalls [" "; "black leather wallet"] (Demo.world [Demo.F1])).
Proof. vm_compute. split; reflexivity. Qed.

(** C6 (amended): for every request whose description is missing or is the
    empty string (the text is not normalized, so white space counts as
    text), the handler answers 400 "Lost item description is required"
    without reading the collection and without any embedding call. *)
Theorem empty_description_rejected
    (similarityModel : string -> Completion Embeddings)
    (req : Request) (w : World) :
  query req !! "lostItemDescription" = None
  \/ query req !! "lostItemDescription" = Some "" ->
  matchingfounditems similarityModel req w
  = (Normal {| status := 400; json := Message "Lost item description is required" |}, w).
Proof. apply matchingfounditems_400. Qed.

(** The amended C6 on the empty description. *)
Lemma empty_description_rejected_witness :
  matchingfounditems Demo.model (Demo.request "") (Demo.world [Demo.F1])
  = (Normal {| status := 400; json := Message "Lost item description is required" |},
     Demo.world [Demo.F1]).
Proof.
  apply (empty_description_rejected Demo.model (Demo.request "") (Demo.world [Demo.F1])).
  right. vm_compute. reflexivity.
Defined.

(** ** Comparisons of binary64 numbers *)

Lemma float_positive_above_zero (t : float) :
  (0 <? t)%float = true -> (t <=? 0)%float = false.
Proof.
  rewrite ltb_spec, leb_spec. unfold SFltb, SFleb.
  change (Prim2SF 0) with (S754_zero false).
  destruct (Prim2SF t) as [s|s| |s m e]; simpl; try destruct s; simpl;
    try discriminate; reflexivity.
Qed.

(** ** Order of the result *)

(** The response does not depend on the calls logged so far. *)
Lemma matchingfounditems_log_irrelevant similarityModel req w texts :
  (matchingfounditems similarityModel req (logModelCalls texts w)).1
  = (matchingfounditems similarityModel req w).1.
Proof.
  destruct (query req !! "lostItemDescription") as [lostItemDescription|] eqn:Hq.
  - destruct (decide (lostItemDescription = "")) as [->|Hne].
    + by rewrite !matchingfounditems_400 by (by right).
    + destruct (findRejects w) as [message|] eqn:Hfind.
      * by rewrite !(matchingfounditems_500 _ _ _ _ message Hq Hne).
      * by rewrite !(matchingfounditems_200 _ _ _ _ Hq Hne).
  - by rewrite !matchingfounditems_400 by (by left).
Qed.

(** C3, as the spec states it, fails: the wallet scoring 0.6 is returned
    before the wallet scoring 1, because it is stored first. *)
Lemma result_keeps_fetch_order_not_score_order :
  (matchingfounditems Demo.model (Demo.request "lost a leather wallet")
     (Demo.world [Demo.F1; Demo.F2; Demo.F3])).1
  = Normal {| status := 200; json := Items [Demo.F1; Demo.F3] |}
  /\ map (fun item => similarityOf Demo.model "lost a leather wallet" (description item))
       [Demo.F1; Demo.F3]
     = [0x1.3333333333333p-1; 1]%float
  /\ scoreDescending
       (map (fun item => similarityOf Demo.model "lost a leather wallet" (description item))
          [Demo.F1; Demo.F3])
     = false.
Proof. vm_compute. repeat split; reflexivity. Qed.

(** C3 (amended): the result sequence of a match request is the fetched
    collection restricted to the items scoring at least 0.5, in the order
    of the fetch (no sort by score or report date is applied); running the
    same request again on the unchanged collection, the model answering
    alike, yields the identical response. *)
Theorem result_in_fetch_order_and_reproducible
    (similarityModel : string -> Completion Embeddings)
    (req : Request) (w : World) (lostItemDescription : string) :
  query req !! "lostItemDescription" = Some lostItemDescription ->
  lostItemDescription <> "" ->
  findRejects w = None ->
  (matchingfounditems similarityModel req w).1
  = Normal
      {| status := 200;
         json := Items
                   (List.filter
                      (fun item =>
                         (0.5 <=? similarityOf similarityModel lostItemDescription
                                    (description item))%float)
                      (foundItemCollection w)) |}
  /\ (matchingfounditems similarityModel req
        (matchingfounditems similarityModel req w).2).1
     = (matchingfounditems similarityModel req w).1.
Proof.
  intros Hq Hne Hfind.
  rewrite (matchingfounditems_200 _ _ _ _ Hq Hne Hfind); simpl.
  split; [reflexivity|].
  rewrite matchingfounditems_log_irrelevant.
  by rewrite (matchingfounditems_200 _ _ _ _ Hq Hne Hfind).
Qed.

(** The amended C3 on the three-candidate collection. *)
Lemma result_in_fetch_order_witness :
  (matchingfounditems Demo.model (Demo.request "lost a leather wallet")
     (Demo.world [Demo.F1; Demo.F2; Demo.F3])).1
  = Normal
      {| status := 200;
         json := Items
                   (List.filter
                      (fun item =>
                         (0.5 <=? similarityOf Demo.model "lost a leather wallet"
                                    (description item))%float)
                      [Demo.F1; Demo.F2; Demo.F3]) |}
  /\ (matchingfounditems Demo.model (Demo.request "lost a leather wallet")
        (matchingfounditems Demo.model (Demo.request "lost a leather wallet")
           (Demo.world [Demo.F1; Demo.F2; Demo.F3])).2).1
     = (matchingfounditems Demo.model (Demo.request "lost a leather wallet")
          (Demo.world [Demo.F1; Demo.F2; Demo.F3])).1.
Proof.
  apply (result_in_fetch_order_and_reproducible Demo.model
           (Demo.request "lost a leather wallet")
           (Demo.world [Demo.F1; Demo.F2; Demo.F3]) "lost a leather wallet").
  - vm_compute. reflexivity.
  - discriminate.
  - reflexivity.
Defined.

(** ** The threshold *)

(** C4, as the spec states it, fails: a caller asking for the threshold
    0.75 still receives the wallet that scores 0.6. *)
Lemma supplied_threshold_is_ignored :
  query (Demo.requestWithThreshold "lost a leather wallet" "0.75") !! "threshold"
  = Some "0.75"
  /\ (matchingfounditems Demo.model
        (Demo.requestWithThreshold "lost a leather wallet" "0.75")
        (Demo.world [Demo.F1; Demo.F2; Demo.F3])).1
     = Normal {| status := 200; json := Items [Demo.F1; Demo.F3] |}
  /\ (0.75 <=? similarityOf Demo.model "lost a leather wallet" (description Demo.F1))%float
     = false.
Proof. vm_compute. repeat split; reflexivity. Qed.

(** C4 (amended): a match request retains exactly the fetched items whose
    similarity score is at least 0.5; the threshold is the constant 0.5 of
    the handler, which reads no request parameter other than
    [lostItemDescription], so no caller can change it. *)
Theorem threshold_is_fixed_at_half
    (similarityModel : string -> Completion Embeddings)
    (req : Request) (w : World) (lostItemDescription : string) :
  query req !! "lostItemDescription" = Some lostItemDescription ->
  lostItemDescription <> "" ->
  findRejects w = None ->
  (exists r,
      (matchingfounditems similarityModel req w).1 = Normal r
      /\ status r = 200%nat
      /\ forall item,
           item ∈ returnedItems r
           <-> item ∈ foundItemCollection w
               /\ (0.5 <=? similarityOf similarityModel lostItemDescription
                             (description item))%float = true)
  /\ forall req',
       query req' !! "lostItemDescription" = Some lostItemDescription ->
       matchingfounditems similarityModel req' w = matchingfounditems similarityModel req w.
Proof.
  intros Hq Hne Hfind. split.
  - rewrite (matchingfounditems_200 _ _ _ _ Hq Hne Hfind); simpl.
    eexists. split; [reflexivity|]. split; [reflexivity|].
    intros item. unfold returnedItems; simpl. apply elem_of_keptItems.
  - intros req' Hq'.
    by rewrite (matchingfounditems_200 _ _ _ _ Hq Hne Hfind),
      (matchingfounditems_200 _ _ _ _ Hq' Hne Hfind).
Qed.

(** The amended C4 on a request that carries a threshold parameter. *)
Lemma threshold_is_fixed_at_half_witness :
  (exists r,
      (matchingfounditems Demo.model
         (Demo.requestWithThreshold "lost a leather wallet" "0.75")
         (Demo.world [Demo.F1; Demo.F2; Demo.F3])).1 = Normal r
      /\ status r = 200%nat
      /\ forall item,
           item ∈ returnedItems r
           <-> item ∈ [Demo.F1; Demo.F2; Demo.F3]
               /\ (0.5 <=? similarityOf Demo.model "lost a leather wallet"
                             (description item))%float = true)
  /\ forall req',
       query req' !! "lostItemDescription" = Some "lost a leather wallet" ->
       matchingfounditems Demo.model req' (Demo.world [Demo.F1; Demo.F2; Demo.F3])
       = matchingfounditems Demo.model
           (Demo.requestWithThreshold "lost a leather wallet" "0.75")
           (Demo.world [Demo.F1; Demo.F2; Demo.F3]).
Proof.
  apply (threshold_is_fixed_at_half Demo.model
           (Demo.requestWithThreshold "lost a leather wallet" "0.75")
           (Demo.world [Demo.F1; Demo.F2; Demo.F3]) "lost a leather wallet").
  - vm_compute. reflexivity.
  - discriminate.
  - reflexivity.
Defined.




(** ** Swallowed errors *)

(** C9: [computeTextSimilarity] always resolves to a number and never
    throws; when a model call or the similarity computation throws it
    resolves to 0, so such a candidate is dropped by the candidate loop at
    every positive cutoff while the loop runs to its end, and the handler
    (cutoff 0.5) answers 200 without it. *)
Theorem computeTextSimilarity_never_throws
    (similarityModel : string -> Completion Embeddings) :
  (forall (text1 text2 : string) (w : World),
     exists similarity,
       (computeTextSimilarity similarityModel text1 text2 w).1 = Normal similarity
       /\ (throwsInside similarityModel text1 text2 = true -> similarity = 0%float))
  /\ (forall (threshold : float) (lostItemDescription : string)
            (foundItems matchedItems : list FoundItem) (item : FoundItem) (w : World),
        (0 <? threshold)%float = true ->
        throwsInside similarityModel lostItemDescription (description item) = true ->
        exists matched,
          (matchLoop similarityModel threshold lostItemDescription foundItems matchedItems w).1
          = Normal (matchedItems ++ matched)
          /\ item ∉ matched)
  /\ (forall (req : Request) (lostItemDescription : string) (item : FoundItem) (w : World),
        query req !! "lostItemDescription" = Some lostItemDescription ->
        lostItemDescription <> "" ->
        findRejects w = None ->
        throwsInside similarityModel lostItemDescription (description item) = true ->
        exists r,
          (matchingfounditems similarityModel req w).1 = Normal r
          /\ status r = 200%nat
          /\ item ∉ returnedItems r).
Proof.
  split; [|split].
  - intros text1 text2 w. rewrite computeTextSimilarity_run; simpl.
    eexists. split; [reflexivity|]. apply similarityOf_throws.
  - intros threshold lostItemDescription foundItems matchedItems item w Hpos Hthrows.
    rewrite matchLoop_run; simpl.
    eexists. split; [reflexivity|].
    rewrite elem_of_keptItems. intros [_ Hle].
    rewrite (similarityOf_throws _ _ _ Hthrows) in Hle.
    by rewrite (float_positive_above_zero _ Hpos) in Hle.
  - intros req lostItemDescription item w Hq Hne Hfind Hthrows.
    rewrite (matchingfounditems_200 _ _ _ _ Hq Hne Hfind); simpl.
    eexists. split; [reflexivity|]. split; [reflexivity|].
    unfold returnedItems; simpl.
    rewrite elem_of_keptItems. intros [_ Hle].
    by rewrite (similarityOf_throws _ _ _ Hthrows) in Hle.
Qed.

(** C9 on a candidate whose description the model rejects. *)
Lemma computeTextSimilarity_never_throws_witness :
  (computeTextSimilarity Demo.model "lost a leather wallet" "unreadable" (Demo.world [])).1
  = Normal 0%float
  /\ exists r,
       (matchingfounditems Demo.model (Demo.request "lost a leather wallet")
          (Demo.world [Demo.F1; Demo.F4; Demo.F3])).1 = Normal r
       /\ status r = 200%nat
       /\ Demo.F4 ∉ returnedItems r.
Proof.
  destruct (computeTextSimilarity_never_throws Demo.model) as (Hrun & _ & Hhandler).
  split.
  - destruct (Hrun "lost a leather wallet" "unreadable" (Demo.world []))
      as (similarity & Hresolves & Hzero).
    rewrite Hresolves. f_equal. apply Hzero. reflexivity.
  - apply (Hhandler (Demo.request "lost a leather wallet") "lost a leather wallet"
             Demo.F4 (Demo.world [Demo.F1; Demo.F4; Demo.F3])).
    + vm_compute. reflexivity.
    + discriminate.
    + reflexivity.
    + reflexivity.
Defined.

(** ** What the handler returns and what it leaves alone *)

(** C10: every element of the returned list is an element of the collection
    as fetched, in the order of the fetch and no more often than there (at
    most once when the documents have distinct identifiers); the collection
    is the same after the request. *)
Theorem returned_items_are_fetched_items
    (similarityModel : string -> Completion Embeddings)
    (req : Request) (w : World) :
  exists r,
    (matchingfounditems similarityModel req w).1 = Normal r
    /\ sublist (returnedItems r) (foundItemCollection w)
    /\ (forall item, item ∈ returnedItems r -> item ∈ foundItemCollection w)
    /\ (NoDup (_id <$> foundItemCollection w) -> NoDup (_id <$> returnedItems r))
    /\ foundItemCollection (matchingfounditems similarityModel req w).2
       = foundItemCollection w
    /\ findRejects (matchingfounditems similarityModel req w).2 = findRejects w.
Proof.
  destruct (matchingfounditems_cases similarityModel req w)
    as (r & texts & Hrun & threshold & lostItemDescription & Hsub).
  rewrite Hrun; simpl. exists r.
  assert (Hsub' : sublist (returnedItems r) (foundItemCollection w)).
  { etrans; [exact Hsub|]. apply keptItems_sublist. }
  split; [reflexivity|]. split; [exact Hsub'|]. split; [|split; [|done]].
  - intros item Hin. by eapply sublist_subseteq.
  - intros Hnodup. eapply sublist_NoDup; [exact Hnodup|]. by apply fmap_sublist.
Qed.

(** C10 on the three-candidate collection. *)
Lemma returned_items_are_fetched_items_witness :
  exists r,
    (matchingfounditems Demo.model (Demo.request "lost a leather wallet")
       (Demo.world [Demo.F1; Demo.F2; Demo.F3])).1 = Normal r
    /\ sublist (returnedItems r) [Demo.F1; Demo.F2; Demo.F3]
    /\ NoDup (_id <$> returnedItems r)
    /\ foundItemCollection
         (matchingfounditems Demo.model (Demo.request "lost a leather wallet")
            (Demo.world [Demo.F1; Demo.F2; Demo.F3])).2
       = [Demo.F1; Demo.F2; Demo.F3].
Proof.
  destruct (returned_items_are_fetched_items Demo.model
              (Demo.request "lost a leather wallet")
              (Demo.world [Demo.F1; Demo.F2; Demo.F3]))
    as (r & Hrun & Hsub & _ & Hnodup & Hsame & _).
  exists r. split; [exact Hrun|]. split; [exact Hsub|]. split; [|exact Hsame].
  apply Hnodup.
  apply (bool_decide_unpack (NoDup (_id <$> [Demo.F1; Demo.F2; Demo.F3]))).
  vm_compute. exact I.
Defined.

(** ** Zero norms *)

Lemma float_zero_cases (x : float) :
  (x =? 0)%float = true -> exists s, Prim2SF x = S754_zero s.
Proof.
  rewrite FloatAxioms.eqb_spec. change (Prim2SF 0) with (S754_zero false).
  unfold SFeqb.
  destruct (Prim2SF x) as [s|s| |s m e]; simpl; try destruct s;
    try discriminate; eauto.
Qed.

(** A quotient whose denominator is a product with a zero factor is NaN or
    infinite. *)
Lemma float_div_by_zero_product (dot normA normB : float) :
  (normA =? 0)%float = true \/ (normB =? 0)%float = true ->
  is_nan (dot / (normA * normB)) = true
  \/ is_infinity (dot / (normA * normB)) = true.
Proof.
  intros Hzero.
  assert (Hden : Prim2SF (normA * normB) = S754_nan
                 \/ exists s, Prim2SF (normA * normB) = S754_zero s).
  { rewrite mul_spec.
    destruct Hzero as [H|H]; apply float_zero_cases in H as [s Hs]; rewrite Hs.
    - destruct (Prim2SF normB) as [s'|s'| |s' m e]; simpl; eauto.
    - destruct (Prim2SF normA) as [s'|s'| |s' m e]; simpl; eauto. }
  unfold is_nan, is_infinity. rewrite !FloatAxioms.eqb_spec, abs_spec, div_spec.
  destruct Hden as [Hd|[s Hd]]; rewrite Hd.
  - left. destruct (Prim2SF dot) as [s'|s'| |s' m e]; reflexivity.
  - destruct (Prim2SF dot) as [s'|s'| |s' m e]; simpl; auto.
Qed.

(** C5 is not what the code does: when either vector has zero norm,
    [cosineSimilarity] divides by zero and returns NaN or an infinity,
    never 0. *)
Theorem zero_norm_similarity_is_not_zero (a b : list float) :
  (norm a =? 0)%float = true \/ (norm b =? 0)%float = true ->
  (is_nan (cosineSimilarity a b) = true \/ is_infinity (cosineSimilarity a b) = true)
  /\ cosineSimilarity a b <> 0%float.
Proof.
  intros Hzero.
  assert (Hbad : is_nan (cosineSimilarity a b) = true
                 \/ is_infinity (cosineSimilarity a b) = true).
  { unfold cosineSimilarity. by apply float_div_by_zero_product. }
  split; [exact Hbad|].
  intros Heq. rewrite Heq in Hbad. by destruct Hbad.
Qed.

(** C5 at the zero vector against a unit vector, and at a candidate whose
    text embeds to the zero vector: the score is NaN. *)
Lemma zero_norm_similarity_is_nan :
  cosineSimilarity [0; 0]%float [1; 0]%float = nan
  /\ cosineSimilarity [0; 0]%float [1; 0]%float <> 0%float
  /\ (computeTextSimilarity Demo.model "lost a leather wallet" "blank" (Demo.world [])).1
     = Normal nan.
Proof.
  split; [reflexivity|]. split; [|reflexivity].
  apply (zero_norm_similarity_is_not_zero [0; 0]%float [1; 0]%float).
  left. reflexivity.
Defined.

(** ** The range of the similarity *)

(** C8, as the spec states it, fails in binary64 arithmetic: the vector
    (2, 3) against itself scores 1.0000000000000002. *)
Lemma similarity_above_one :
  forallb is_finite [2; 3]%float = true
  /\ (norm [2; 3]%float =? 0)%float = false
  /\ cosineSimilarity [2; 3]%float [2; 3]%float = 0x1.0000000000001p+0%float
  /\ (cosineSimilarity [2; 3]%float [2; 3]%float <=? 1)%float = false.
Proof. repeat split; reflexivity. Qed.

(** Small components lose most of their square to underflow, and the score
    leaves the interval by far. *)
Example similarity_far_above_one :
  is_finite 0x1.3p-537%float = true
  /\ (norm [0x1.3p-537]%float =? 0)%float = false
  /\ cosineSimilarity [0x1.3p-537]%float [1]%float = 0x1.3p+0%float.
Proof. repeat split; reflexivity. Qed.

(** Large finite components overflow the sums: both norms are infinite and
    the quotient is NaN. *)
Example similarity_overflow_is_nan :
  is_finite 0x1p+600%float = true
  /\ norm [0x1p+600]%float = infinity
  /\ cosineSimilarity [0x1p+600]%float [0x1p+600]%float = nan.
Proof. repeat split; reflexivity. Qed.

(** ** Proof steps shared by the theorems on answers and traces *)

(** Splitting a goal made of conjunctions and equivalences over a known
    reply and a known trace, and refuting what the trace cannot contain. *)
Ltac read_off :=
  repeat match goal with
         | |- _ /\ _ => split
         | |- _ <-> _ => split
         | |- forall _, _ => intro
         | H : _ ∈ [] |- _ => by apply elem_of_nil in H
         | H : _ ∈ _ :: _ |- _ => apply elem_of_cons in H as [H|H]
         | H : _ /\ _ |- _ => destruct H
         | H : _ \/ _ |- _ => destruct H
         | H : exists _, _ |- _ => destruct H
         | H : ?x <> ?x |- _ => by destruct H
         | H : DocSave _ = DocSave _ |- _ => injection H as ->
         | H : UnlinkSync _ = UnlinkSync _ |- _ => injection H as ->
         end;
  try done; try congruence; try (simplify_eq; congruence).

(** Settling a run whose calls are all known. *)
Ltac settle_run :=
  eexists _, _; (split; [reflexivity|]); simpl; read_off.

(** ** Symmetry and mismatched dimensions *)

Lemma Prim2SF_injective (x y : float) : Prim2SF x = Prim2SF y -> x = y.
Proof.
  intros Heq. rewrite <- (SF2Prim_Prim2SF x), <- (SF2Prim_Prim2SF y). by rewrite Heq.
Qed.

Lemma float_mul_comm (x y : float) : (x * y)%float = (y * x)%float.
Proof.
  apply Prim2SF_injective. rewrite !mul_spec. unfold SF64mul, SFmul.
  destruct (Prim2SF x) as [sx|sx| |sx mx ex], (Prim2SF y) as [sy|sy| |sy my ey];
    try reflexivity; try (by rewrite xorb_comm).
  by rewrite xorb_comm, Pos.mul_comm, Z.add_comm.
Qed.

Lemma float_nan_add_l (x : float) : (nan + x)%float = nan.
Proof.
  apply Prim2SF_injective. rewrite add_spec.
  change (Prim2SF nan) with S754_nan. reflexivity.
Qed.

Lemma float_nan_add_r (x : float) : (x + nan)%float = nan.
Proof.
  apply Prim2SF_injective. rewrite add_spec.
  change (Prim2SF nan) with S754_nan.
  by destruct (Prim2SF x) as [s|s| |s m e].
Qed.

Lemma float_nan_div_l (x : float) : (nan / x)%float = nan.
Proof.
  apply Prim2SF_injective. rewrite div_spec.
  change (Prim2SF nan) with S754_nan. reflexivity.
Qed.

Lemma float_leb_nan_r (t : float) : (t <=? nan)%float = false.
Proof.
  rewrite leb_spec. change (Prim2SF nan) with S754_nan.
  unfold SFleb. by destruct (Prim2SF t) as [s|s| |s m e].
Qed.

Section DotProduct.
Context {num : Type} `{JsNumber num}.

(** While [b] is long enough, the reduce of [dotProduct] is [dotFrom]. *)
Lemma reduce_dotFrom (b : list num) (index : nat) (a : list num) (acc : num) :
  (length a <= length (drop index b))%nat ->
  reduceFrom (fun sum value i => num_add sum (timesAt value b i)) index a acc
  = dotFrom acc a (drop index b).
Proof.
  revert index acc. induction a as [|value rest IH]; intros index acc Hlen; simpl.
  - by destruct (drop index b).
  - destruct (drop index b) as [|other tail] eqn:Hdrop; [simpl in Hlen; lia|].
    assert (Hlookup : b !! index = Some other).
    { rewrite <- (Nat.add_0_r index), <- lookup_drop. by rewrite Hdrop. }
    assert (Htail : drop (S index) b = tail).
    { change (S index) with (1 + index)%nat. rewrite Nat.add_comm, <- drop_drop.
      by rewrite Hdrop. }
    rewrite IH by (rewrite Htail; simpl in Hlen; lia).
    unfold timesAt. by rewrite Hlookup, Htail.
Qed.
End DotProduct.

Lemma dotFrom_comm (acc : float) (a b : list float) :
  length a = length b -> dotFrom acc a b = dotFrom acc b a.
Proof.
  revert acc b. induction a as [|x a IH]; intros acc [|y b] Hlen; try done.
  simpl. rewrite (float_mul_comm x y). apply IH. simpl in Hlen. lia.
Qed.

(** The scorer is symmetric, bit for bit, on vectors of one dimension: the
    products commute and both sums run in the same order. *)
Theorem cosineSimilarity_symmetric (a b : list float) :
  length a = length b ->
  cosineSimilarity a b = cosineSimilarity b a.
Proof.
  intros Hlen. unfold cosineSimilarity, reduce.
  rewrite !reduce_dotFrom by (rewrite drop_0; lia).
  rewrite !drop_0, (dotFrom_comm _ a b Hlen).
  f_equal. apply float_mul_comm.
Qed.

(** Symmetry on two vectors of dimension two. *)
Lemma cosineSimilarity_symmetric_witness :
  cosineSimilarity [3; 4]%float [1; 2]%float = cosineSimilarity [1; 2]%float [3; 4]%float.
Proof. apply (cosineSimilarity_symmetric [3; 4]%float [1; 2]%float). reflexivity. Defined.

(** With vectors of different dimensions the order of the arguments
    matters. *)
Example cosineSimilarity_asymmetric_dimensions :
  cosineSimilarity [1; 1]%float [1]%float = nan
  /\ cosineSimilarity [1]%float [1; 1]%float = 0x1.6a09e667f3bccp-1%float.
Proof. split; reflexivity. Qed.

Section ShortVector.
Variable b : list float.

Let step := fun (sum value : float) (index : nat) => num_add sum (timesAt value b index).

Lemma reduce_nan_absorbs (index : nat) (a : list float) :
  reduceFrom step index a nan = nan.
Proof.
  revert index. induction a as [|value rest IH]; intros index; simpl; [done|].
  unfold step at 2. simpl. by rewrite float_nan_add_l.
Qed.

Lemma reduce_past_the_end (index : nat) (a : list float) (acc : float) :
  (index <= length b < index + length a)%nat ->
  reduceFrom step index a acc = nan.
Proof.
  revert index acc. induction a as [|value rest IH]; intros index acc Hlen; simpl in *.
  - lia.
  - destruct (decide (index = length b)) as [->|Hne].
    + unfold step at 2, timesAt. rewrite lookup_ge_None_2 by lia.
      simpl. rewrite float_nan_add_r. apply reduce_nan_absorbs.
    + apply IH. lia.
Qed.
End ShortVector.

Lemma cosineSimilarity_short_second (a b : list float) :
  (length b < length a)%nat -> cosineSimilarity a b = nan.
Proof.
  intros Hlen. unfold cosineSimilarity, reduce.
  rewrite (reduce_past_the_end b 0 a) by lia.
  apply float_nan_div_l.
Qed.

(** A candidate whose embedding has fewer components than the query's
    scores NaN ([b[index]] reads [undefined] past the end of [b]), and NaN
    passes no comparison: the handler never returns it. *)
Theorem shorter_candidate_embedding_never_matches
    (similarityModel : string -> Completion Embeddings)
    (req : Request) (w : World) (lostItemDescription : string) (item : FoundItem)
    (embeddings1 embeddings2 : Embeddings) (a b : list float) :
  query req !! "lostItemDescription" = Some lostItemDescription ->
  lostItemDescription <> "" ->
  findRejects w = None ->
  similarityModel lostItemDescription = Normal embeddings1 ->
  similarityModel (description item) = Normal embeddings2 ->
  embeddings1 !! 0%nat = Some a ->
  embeddings2 !! 0%nat = Some b ->
  (length b < length a)%nat ->
  (computeTextSimilarity similarityModel lostItemDescription (description item) w).1
  = Normal nan
  /\ exists r,
       (matchingfounditems similarityModel req w).1 = Normal r
       /\ status r = 200%nat
       /\ item ∉ returnedItems r.
Proof.
  intros Hq Hne Hfind Hmodel1 Hmodel2 Ha Hb Hlen.
  assert (Hscore : similarityOf similarityModel lostItemDescription (description item) = nan).
  { unfold similarityOf. rewrite Hmodel1, Hmodel2, Ha, Hb.
    by apply cosineSimilarity_short_second. }
  split.
  - rewrite computeTextSimilarity_run; simpl. by rewrite Hscore.
  - rewrite (matchingfounditems_200 _ _ _ _ Hq Hne Hfind); simpl.
    eexists. split; [reflexivity|]. split; [reflexivity|].
    unfold returnedItems; simpl. rewrite elem_of_keptItems. intros [_ Hle].
    by rewrite Hscore, float_leb_nan_r in Hle.
Qed.

(** ** The answers of the matching handler *)

(** The handler always answers, with 400, 500 or 200: 400 exactly for a
    missing or empty description; 500 exactly when the description is
    present and [FoundItem.find()] rejects, with the message of that
    rejection; 200 otherwise.  Only the 200 path calls the embedding
    model. *)
Theorem matchingfounditems_answers
    (similarityModel : string -> Completion Embeddings)
    (req : Request) (w : World) :
  exists r texts,
    matchingfounditems similarityModel req w = (Normal r, logModelCalls texts w)
    /\ (status r = 400%nat \/ status r = 500%nat \/ status r = 200%nat)
    /\ (status r = 400%nat
        <-> query req !! "lostItemDescription" = None
            \/ query req !! "lostItemDescription" = Some "")
    /\ (status r = 500%nat
        <-> status r <> 400%nat /\ exists message, findRejects w = Some message)
    /\ (forall message,
          status r <> 400%nat -> findRejects w = Some message ->
          json r = ErrorMessage "Error processing matching items" message)
    /\ (status r <> 200%nat -> texts = []).
Proof.
  destruct (query req !! "lostItemDescription") as [lostItemDescription|] eqn:Hq.
  - destruct (decide (lostItemDescription = "")) as [->|Hne].
    + eexists _, []. rewrite logModelCalls_nil.
      split; [apply matchingfounditems_400; by right|]. simpl. read_off; eauto.
    + destruct (findRejects w) as [message|] eqn:Hfind.
      * eexists _, []. rewrite logModelCalls_nil.
        split; [by eapply matchingfounditems_500|]. simpl. read_off; eauto.
      * eexists _, _. split; [by eapply matchingfounditems_200|]. simpl. read_off; eauto.
  - eexists _, []. rewrite logModelCalls_nil.
    split; [apply matchingfounditems_400; by left|]. simpl. read_off; eauto.
Qed.

(** ** Regular expressions: [test] decides the language *)

Lemma Matches_nil_nullable (r : Regex) : Matches r [] -> nullable r = true.
Proof.
  intros Hm. remember [] as s eqn:Hs.
  induction Hm as [ |member c Hc|r1 r2 s1 s2 _ IH1 _ IH2|r1 r2 s _ IH|r1 r2 s _ IH
                   |r|r s1 s2 _ _ _ _]; simpl; try done.
  - apply app_eq_nil in Hs as [-> ->]. by rewrite IH1, IH2.
  - by rewrite IH.
  - rewrite IH by done. apply orb_true_r.
Qed.

Lemma nullable_Matches_nil (r : Regex) : nullable r = true -> Matches r [].
Proof.
  induction r as [ | |member|r1 IH1 r2 IH2|r1 IH1 r2 IH2|r IH]; simpl; intros Hn;
    try discriminate.
  - constructor.
  - apply andb_true_iff in Hn as [Hn1 Hn2].
    change (@nil N) with (@nil N ++ @nil N). constructor; auto.
  - apply orb_true_iff in Hn as [Hn|Hn]; [apply MatchesAltL|apply MatchesAltR]; auto.
  - constructor.
Qed.

Lemma derive_sound (c : N) (r : Regex) (s : JsStr) :
  Matches (derive c r) s -> Matches r (c :: s).
Proof.
  revert s. induction r as [ | |member|r1 IH1 r2 IH2|r1 IH1 r2 IH2|r IH]; simpl; intros s Hm.
  - inversion Hm.
  - inversion Hm.
  - destruct (member c) eqn:Hc; inversion Hm; subst. by constructor.
  - destruct (nullable r1) eqn:Hn.
    + inversion Hm as [ | |? ? s1 s2 Hm1 Hm2| ? ? ? Hl | ? ? ? Hr | | ]; subst.
      * inversion Hl as [ | |? ? s1 s2 Hm1 Hm2| | | | ]; subst.
        change (c :: s1 ++ s2) with ((c :: s1) ++ s2). constructor; auto.
      * change (c :: s) with ([] ++ c :: s).
        constructor; [by apply nullable_Matches_nil|auto].
    + inversion Hm as [ | |? ? s1 s2 Hm1 Hm2| | | | ]; subst.
      change (c :: s1 ++ s2) with ((c :: s1) ++ s2). constructor; auto.
  - inversion Hm; subst; [apply MatchesAltL|apply MatchesAltR]; auto.
  - inversion Hm as [ | |? ? s1 s2 Hm1 Hm2| | | | ]; subst.
    change (c :: s1 ++ s2) with ((c :: s1) ++ s2). constructor; auto.
Qed.

Lemma derive_complete (c : N) (r : Regex) (s : JsStr) :
  Matches r (c :: s) -> Matches (derive c r) s.
Proof.
  intros Hm. remember (c :: s) as s0 eqn:Hs. revert s Hs.
  induction Hm as [ |member c0 Hc|r1 r2 s1 s2 Hm1 IH1 Hm2 IH2|r1 r2 s0 _ IH|r1 r2 s0 _ IH
                   |r|r s1 s2 Hm1 IH1 Hm2 IH2]; intros s Hs; simpl; try discriminate.
  - injection Hs as -> <-. rewrite Hc. constructor.
  - destruct s1 as [|c1 s1]; simpl in Hs.
    + rewrite (Matches_nil_nullable _ Hm1). apply MatchesAltR. auto.
    + injection Hs as -> <-.
      destruct (nullable r1); [apply MatchesAltL|]; constructor; auto.
  - apply MatchesAltL. auto.
  - apply MatchesAltR. auto.
  - destruct s1 as [|c1 s1]; simpl in Hs.
    + auto.
    + injection Hs as -> <-. constructor; auto.
Qed.

Lemma testWhole_Matches (r : Regex) (s : JsStr) :
  testWhole r s = true <-> Matches r s.
Proof.
  revert r. induction s as [|c s IH]; intros r; simpl.
  - split; [apply nullable_Matches_nil|apply Matches_nil_nullable].
  - rewrite IH. split; [apply derive_sound|apply derive_complete].
Qed.

Lemma Matches_cat (r1 r2 : Regex) (s : JsStr) :
  Matches (RCat r1 r2) s
  <-> exists s1 s2, s = s1 ++ s2 /\ Matches r1 s1 /\ Matches r2 s2.
Proof.
  split.
  - intros Hm. inversion Hm; subst. eauto.
  - intros (s1 & s2 & -> & Hm1 & Hm2). by constructor.
Qed.

Lemma Matches_unit (k : N) (s : JsStr) : Matches (RClass (N.eqb k)) s <-> s = [k].
Proof.
  split.
  - intros Hm. inversion Hm as [ |? c Hc| | | | | ]; subst.
    apply N.eqb_eq in Hc. by subst.
  - intros ->. constructor. apply N.eqb_refl.
Qed.

Lemma Matches_star_class (member : N -> bool) (s : JsStr) :
  Matches (RStar (RClass member)) s <-> Forall (fun c => member c = true) s.
Proof.
  split.
  - intros Hm. remember (RStar (RClass member)) as r eqn:Hr.
    induction Hm as [ | | | | |r|r s1 s2 Hm1 _ _ IH2]; try discriminate.
    + constructor.
    + injection Hr as ->. inversion Hm1; subst. constructor; auto.
  - induction 1 as [|c s Hc _ IH]; [constructor|].
    change (c :: s) with ([c] ++ s). constructor; [by constructor|done].
Qed.

Lemma Matches_plus_class (member : N -> bool) (s : JsStr) :
  Matches (RPlus (RClass member)) s
  <-> s <> [] /\ Forall (fun c => member c = true) s.
Proof.
  unfold RPlus. rewrite Matches_cat. split.
  - intros (s1 & s2 & -> & Hm1 & Hm2). inversion Hm1; subst.
    apply Matches_star_class in Hm2. split; [done|]. by constructor.
  - intros [Hne Hall]. destruct Hall as [|c s Hc Hall]; [done|].
    exists [c], s. split; [done|]. split; [by constructor|].
    by apply Matches_star_class.
Qed.

(** ** The e-mail test of [/register] *)

Lemma emailRegex_shape (s : JsStr) :
  testWhole emailRegex s = true
  <-> exists localPart domain rest,
        s = localPart ++ atSign :: domain ++ fullStop :: rest
        /\ localPart <> [] /\ domain <> [] /\ rest <> []
        /\ Forall (fun c => notSpaceNorAt c = true) localPart
        /\ Forall (fun c => notSpaceNorAt c = true) domain
        /\ Forall (fun c => notSpaceNorAt c = true) rest.
Proof.
  rewrite testWhole_Matches. unfold emailRegex.
  split.
  - intros Hm.
    apply Matches_cat in Hm as (localPart & s1 & -> & Hlocal & Hm).
    apply Matches_cat in Hm as (at1 & s2 & -> & Hat & Hm).
    apply Matches_cat in Hm as (domain & s3 & -> & Hdomain & Hm).
    apply Matches_cat in Hm as (dot1 & rest & -> & Hdot & Hrest).
    apply Matches_unit in Hat as ->. apply Matches_unit in Hdot as ->.
    apply Matches_plus_class in Hlocal as [? ?].
    apply Matches_plus_class in Hdomain as [? ?].
    apply Matches_plus_class in Hrest as [? ?].
    by exists localPart, domain, rest.
  - intros (localPart & domain & rest & -> & Hl & Hd & Hr & Hal & Had & Har).
    apply Matches_cat. exists localPart, (atSign :: domain ++ fullStop :: rest).
    split; [done|]. split; [by apply Matches_plus_class|].
    apply Matches_cat. exists [atSign], (domain ++ fullStop :: rest).
    split; [done|]. split; [by apply Matches_unit|].
    apply Matches_cat. exists domain, (fullStop :: rest).
    split; [done|]. split; [by apply Matches_plus_class|].
    apply Matches_cat. exists [fullStop], rest.
    split; [done|]. split; [by apply Matches_unit|by apply Matches_plus_class].
Qed.

(** [emailRegex.test] accepts exactly the strings of the shape
    [local@domain.rest] whose three parts are non-empty and hold neither
    white space nor [@] (the domain part may itself contain full stops). *)
Theorem emailRegex_accepts_local_at_domain_dot_rest (s : JsStr) :
  testWhole emailRegex s = true
  <-> exists localPart domain rest,
        s = localPart ++ atSign :: domain ++ fullStop :: rest
        /\ localPart <> [] /\ domain <> [] /\ rest <> []
        /\ Forall (fun c => notSpaceNorAt c = true) localPart
        /\ Forall (fun c => notSpaceNorAt c = true) domain
        /\ Forall (fun c => notSpaceNorAt c = true) rest.
Proof.
  split.
  - intros Haccepted. by apply emailRegex_shape.
  - intros Hshape. by apply emailRegex_shape.
Qed.

Example emailRegex_examples :
  testWhole emailRegex (units "ali@example.com") = true
  /\ testWhole emailRegex (units "ali@example") = false
  /\ testWhole emailRegex (units "ali baba@example.com") = false
  /\ testWhole emailRegex (units "ali@home@example.com") = false
  /\ testWhole emailRegex (units "@example.com") = false
  /\ testWhole emailRegex (units "a@b.c.") = true
  /\ testWhole emailRegex (units "ali@example.com" ++ [160%N]) = false.
Proof. vm_compute. repeat split; reflexivity. Qed.

Lemma notSpaceNorAt_count (part : JsStr) :
  Forall (fun c => notSpaceNorAt c = true) part ->
  count_occ N.eq_dec part atSign = 0%nat
  /\ Forall (fun c => isWhiteSpaceUnit c = false) part.
Proof.
  induction 1 as [|c part Hc _ [IHcount IHspace]]; [by split|].
  unfold notSpaceNorAt in Hc. apply negb_true_iff, orb_false_iff in Hc as [Hspace Hat].
  apply N.eqb_neq in Hat. split.
  - rewrite count_occ_cons_neq by done. exact IHcount.
  - by constructor.
Qed.

(** An accepted address has exactly one [@], no white space anywhere, a
    full stop after the [@], and at least five code units. *)
Theorem emailRegex_accepted_address (s : JsStr) :
  testWhole emailRegex s = true ->
  count_occ N.eq_dec s atSign = 1%nat
  /\ Forall (fun c => isWhiteSpaceUnit c = false) s
  /\ (exists before after, s = before ++ atSign :: after /\ fullStop ∈ after)
  /\ (5 <= length s)%nat.
Proof.
  intros Haccepted.
  apply emailRegex_shape in Haccepted
    as (localPart & domain & rest & -> & Hl & Hd & Hr & Hal & Had & Har).
  apply notSpaceNorAt_count in Hal as [Hcl Hsl].
  apply notSpaceNorAt_count in Had as [Hcd Hsd].
  apply notSpaceNorAt_count in Har as [Hcr Hsr].
  split; [|split; [|split]].
  - rewrite count_occ_app, Hcl. simpl.
    destruct (N.eq_dec atSign atSign) as [_|Hne]; [|done].
    rewrite count_occ_app, Hcd. simpl.
    destruct (N.eq_dec fullStop atSign) as [Heq|_]; [discriminate Heq|].
    by rewrite Hcr.
  - apply Forall_app. split; [done|]. constructor; [done|].
    apply Forall_app. split; [done|]. by constructor.
  - exists localPart, (domain ++ fullStop :: rest). split; [done|].
    apply elem_of_app. right. by left.
  - rewrite length_app. simpl. rewrite length_app. simpl.
    destruct localPart, domain, rest; simpl; try done; lia.
Qed.

(** The accepted-address facts on a usual address. *)
Lemma emailRegex_accepted_address_witness :
  count_occ N.eq_dec (units "ali@example.com") atSign = 1%nat
  /\ Forall (fun c => isWhiteSpaceUnit c = false) (units "ali@example.com")
  /\ (exists before after,
        units "ali@example.com" = before ++ atSign :: after /\ fullStop ∈ after)
  /\ (5 <= length (units "ali@example.com"))%nat.
Proof.
  apply (emailRegex_accepted_address (units "ali@example.com")).
  vm_compute. reflexivity.
Defined.

(** ** The account routes *)

(** De Morgan on the four-field guard of [/register]. *)
Lemma guard_four (a b c d : bool) :
  negb a || negb b || negb c || negb d = negb (a && b && c && d).
Proof. by destruct a, b, c, d. Qed.

Lemma guard_five (a b c d e : bool) :
  negb a || negb b || negb c || negb d || negb e = negb (a && b && c && d && e).
Proof. by destruct a, b, c, d, e. Qed.

(** [/register] answers 400 without any call to the database when one of
    the four fields is missing or falsy ("All fields are required"), and
    otherwise when the e-mail test fails ("Invalid email format"). *)
Theorem register_rejects_bad_input_without_database
    (builtinToString : JsValue -> Completion JsStr) (env : Env) (req : HttpRequest) :
  (forallb (fun name => toBoolean (field (body req) name))
     ["name"; "email"; "mobile"; "password"] = false ->
   exec env (register builtinToString req)
   = (Normal {| code := 400;
                sent := [("status", Text "error");
                         ("message", Text "All fields are required")] |}, []))
  /\ (forallb (fun name => toBoolean (field (body req) name))
        ["name"; "email"; "mobile"; "password"] = true ->
      regexTest builtinToString emailRegex (field (body req) "email") = Normal false ->
      exec env (register builtinToString req)
      = (Normal {| code := 400;
                   sent := [("status", Text "error");
                            ("message", Text "Invalid email format")] |}, [])).
Proof.
  unfold exec, register. simpl forallb. rewrite andb_true_r, !andb_assoc, guard_four.
  split.
  - intros ->. reflexivity.
  - intros -> Htest. simpl. by rewrite Htest.
Qed.

(** The two rejections on a body without mobile number and on an address
    without [@]. *)
Lemma register_rejects_bad_input_witness :
  exec Desk.fresh (register Desk.builtinToString Desk.accountWithoutMobile)
  = (Normal {| code := 400;
               sent := [("status", Text "error");
                        ("message", Text "All fields are required")] |}, [])
  /\ exec Desk.fresh (register Desk.builtinToString Desk.accountWithoutAt)
     = (Normal {| code := 400;
                  sent := [("status", Text "error");
                           ("message", Text "Invalid email format")] |}, []).
Proof.
  split.
  - apply (register_rejects_bad_input_without_database Desk.builtinToString Desk.fresh
             Desk.accountWithoutMobile).
    vm_compute. reflexivity.
  - apply (register_rejects_bad_input_without_database Desk.builtinToString Desk.fresh
             Desk.accountWithoutAt).
    + vm_compute. reflexivity.
    + vm_compute. reflexivity.
Defined.

(** For every environment: [/register] always answers; it saves a document
    only after all four fields were truthy, the e-mail test passed and
    [User.findOne] found no user with that e-mail, and the document saved is
    the one [new User] built from the four fields as received; it answers
    201 exactly when that save succeeded, and 409 without creating anything
    exactly when [User.findOne] found a user. *)
Theorem register_saves_only_new_valid_users
    (builtinToString : JsValue -> Completion JsStr) (env : Env) (req : HttpRequest) :
  let name := field (body req) "name" in
  let email := field (body req) "email" in
  let mobile := field (body req) "mobile" in
  let password := field (body req) "password" in
  let valid :=
    forallb (fun name => toBoolean (field (body req) name))
      ["name"; "email"; "mobile"; "password"] = true
    /\ regexTest builtinToString emailRegex email = Normal true in
  exists reply trace,
    exec env (register builtinToString req) = (Normal reply, trace)
    /\ (forall doc,
          DocSave doc ∈ trace ->
          valid
          /\ env [] (UserFindOne email) = Normal None
          /\ env [UserFindOne email] (UserNew name email mobile password) = Normal doc
          /\ trace = [UserFindOne email; UserNew name email mobile password; DocSave doc])
    /\ (code reply = 201%nat
        <-> exists doc saved,
              DocSave doc ∈ trace
              /\ env [UserFindOne email; UserNew name email mobile password] (DocSave doc)
                 = Normal saved)
    /\ (code reply = 409%nat
        <-> valid /\ exists user, env [] (UserFindOne email) = Normal (Some user))
    /\ (code reply = 409%nat -> trace = [UserFindOne email]).
Proof.
  intros name email mobile password valid. subst valid.
  unfold exec, register. simpl forallb. rewrite andb_true_r, !andb_assoc, guard_four.
  fold name email mobile password.
  destruct (toBoolean name && toBoolean email && toBoolean mobile && toBoolean password)
    eqn:Hfields; simpl; [|settle_run].
  destruct (regexTest builtinToString emailRegex email) as [[|]|message] eqn:Htest; simpl;
    [|settle_run..].
  destruct (env [] (UserFindOne email)) as [[user|]|message] eqn:Hfind; simpl;
    [settle_run; eauto| |settle_run].
  destruct (env [UserFindOne email] (UserNew name email mobile password))
    as [newUser|message] eqn:Hnew; simpl; [|settle_run].
  destruct (env [UserFindOne email; UserNew name email mobile password] (DocSave newUser))
    as [saved|message] eqn:Hsave; simpl; settle_run; eauto.
  exists newUser, saved. split; [|done]. rewrite !elem_of_cons. auto.
Qed.

Example register_runs :
  (exists trace,
      exec Desk.fresh (register Desk.builtinToString Desk.account)
      = (Normal {| code := 201;
                   sent := [("status", Text "success");
                            ("message", Text "User registered successfully")] |}, trace)
      /\ length trace = 3%nat)
  /\ exec Desk.registered (register Desk.builtinToString Desk.account)
     = (Normal {| code := 409;
                  sent := [("status", Text "error");
                           ("message", Text "User already exists")] |},
        [UserFindOne (Desk.text "ali@example.com")]).
Proof. split; [eexists; split|]; vm_compute; reflexivity. Qed.

(** For every environment: [/login] always answers; 404 exactly when
    [User.findOne] finds no user, and then without comparing any password;
    200 exactly when a user was found and [bcrypt.compare] accepted the
    submitted password against that user's stored one; it makes no other
    call than these two. *)
Theorem login_outcomes (env : Env) (req : HttpRequest) :
  let email := field (body req) "email" in
  let password := field (body req) "password" in
  exists reply trace,
    exec env (login req) = (Normal reply, trace)
    /\ (code reply = 404%nat <-> env [] (UserFindOne email) = Normal None)
    /\ (code reply = 404%nat -> trace = [UserFindOne email])
    /\ (code reply = 200%nat
        <-> exists user,
              env [] (UserFindOne email) = Normal (Some user)
              /\ env [UserFindOne email] (BcryptCompare password (field user "password"))
                 = Normal true)
    /\ (code reply = 401%nat
        <-> exists user,
              env [] (UserFindOne email) = Normal (Some user)
              /\ env [UserFindOne email] (BcryptCompare password (field user "password"))
                 = Normal false)
    /\ (forall c, c ∈ trace ->
          c = UserFindOne email
          \/ exists user, c = BcryptCompare password (field user "password")).
Proof.
  intros email password. unfold exec, login. fold email password. simpl.
  destruct (env [] (UserFindOne email)) as [[user|]|message] eqn:Hfind; simpl;
    [|settle_run; eauto..].
  destruct (env [UserFindOne email] (BcryptCompare password (field user "password")))
    as [[|]|message] eqn:Hcompare; simpl; settle_run; eauto.
Qed.

(** ** The report routes *)

(** Case analysis on what the environment answers to each call met. *)
Ltac answer_calls env :=
  repeat match goal with
         | |- context [env ?history ?c] =>
             let answer := fresh "answer" in
             destruct (env history c) as [answer|answer] eqn:?; simpl
         end.

(** [/reportfound] answers 400 without any call when one of its five fields
    is missing or falsy (a category is not asked for); otherwise it makes at
    least one call and does not answer 400.  Whatever happens, it never
    deletes the uploaded file. *)
Theorem reportfound_requires_five_fields (env : Env) (req : HttpRequest) :
  (forallb (fun name => toBoolean (field (body req) name))
     ["contact"; "location"; "time"; "date"; "description"] = false ->
   exec env (reportfound req)
   = (Normal
        {| code := 400;
           sent := [("status", Text "error");
                    ("message",
                     Text "All fields (contact, location, time, date, and description) are required")] |},
      []))
  /\ (forallb (fun name => toBoolean (field (body req) name))
        ["contact"; "location"; "time"; "date"; "description"] = true ->
      exists reply trace,
        exec env (reportfound req) = (Normal reply, trace)
        /\ (code reply = 201%nat \/ code reply = 500%nat)
        /\ trace <> [])
  /\ (forall file, UnlinkSync file ∉ (exec env (reportfound req)).2).
Proof.
  unfold exec, reportfound. simpl forallb. rewrite andb_true_r, !andb_assoc, guard_five.
  destruct (toBoolean (field (body req) "contact") && toBoolean (field (body req) "location")
            && toBoolean (field (body req) "time") && toBoolean (field (body req) "date")
            && toBoolean (field (body req) "description")) eqn:Hfields; simpl.
  2: { split; [done|]. split; [done|]. intros file Hin. by apply elem_of_nil in Hin. }
  split; [done|].
  set (contact := field (body req) "contact").
  set (location := field (body req) "location").
  set (time := field (body req) "time").
  set (date := field (body req) "date").
  set (description := field (body req) "description").
  destruct (file req) as [[[|c rest] mimetype]|]; simpl.
  2: destruct (env [] (ReadFileSync (c :: rest))) as [bytes|message]; simpl.
  all: answer_calls env.
  all: split; [intros _; eexists _, _; split; [reflexivity|]; split; [auto|done]|].
  all: intros file Hin; simpl in Hin;
    repeat (apply elem_of_cons in Hin as [Hin|Hin]; [discriminate Hin|]);
    by apply elem_of_nil in Hin.
Qed.

(** In [/reportfound] the photo is read outside any inner [try]: when the
    read of the uploaded file throws, the request is answered 500 with the
    error's message, and no document is built or saved. *)
Theorem reportfound_photo_read_failure_fails_the_report
    (env : Env) (req : HttpRequest) (upload : Upload) (message : string) :
  forallb (fun name => toBoolean (field (body req) name))
    ["contact"; "location"; "time"; "date"; "description"] = true ->
  file req = Some upload ->
  path upload <> [] ->
  env [] (ReadFileSync (path upload)) = Throw message ->
  exec env (reportfound req)
  = (Normal {| code := 500;
               sent := [("status", Text "error");
                        ("message", Text "Server error  reporting found item");
                        ("details", Text message)] |},
     [ReadFileSync (path upload)]).
Proof.
  unfold exec, reportfound. simpl forallb. rewrite andb_true_r, !andb_assoc, guard_five.
  intros -> -> Hpath Hread. simpl.
  destruct (path upload) as [|c rest]; [done|]. simpl. by rewrite Hread.
Qed.

(** The failing read on a complete report with a photo. *)
Lemma reportfound_photo_read_failure_witness :
  exec Desk.brokenDisk (reportfound (Desk.report (Some Desk.photoUpload)))
  = (Normal {| code := 500;
               sent := [("status", Text "error");
                        ("message", Text "Server error  reporting found item");
                        ("details", Text "ENOENT: no such file or directory")] |},
     [ReadFileSync (path Desk.photoUpload)]).
Proof.
  apply (reportfound_photo_read_failure_fails_the_report Desk.brokenDisk
           (Desk.report (Some Desk.photoUpload)) Desk.photoUpload).
  - vm_compute. reflexivity.
  - reflexivity.
  - discriminate.
  - reflexivity.
Defined.

(** [missingFields] holds exactly the names of the falsy fields among the
    six, in their fixed order; when it is not empty [/reportlost] answers
    400 with these names joined by ", " and makes no call at all. *)
Theorem reportlost_names_the_missing_fields (env : Env) (req : HttpRequest) :
  missingFields (body req)
  = List.filter (fun name => negb (toBoolean (field (body req) name))) reportFieldNames
  /\ (missingFields (body req) <> [] ->
      exec env (reportlost req)
      = (Normal
           {| code := 400;
              sent := [("status", Text "error");
                       ("message",
                        Text ("Missing required fields: "
                              +:+ String.concat ", " (missingFields (body req))))] |},
         [])).
Proof.
  split.
  - unfold missingFields, reportFieldNames. simpl.
    repeat match goal with
           | |- context [toBoolean ?v] => destruct (toBoolean v); simpl
           end; reflexivity.
  - intros Hmissing. unfold exec, reportlost.
    destruct (missingFields (body req)) as [|first others]; [done|]. reflexivity.
Qed.

(** A report without location and date. *)
Lemma reportlost_names_the_missing_fields_witness :
  exec Desk.fresh (reportlost Desk.reportWithoutPlaceAndDate)
  = (Normal
       {| code := 400;
          sent := [("status", Text "error");
                   ("message", Text "Missing required fields: location, date")] |},
     []).
Proof.
  destruct (reportlost_names_the_missing_fields Desk.fresh Desk.reportWithoutPlaceAndDate)
    as [_ Hreply].
  rewrite Hreply; [|by vm_compute].
  vm_compute. reflexivity.
Defined.

(** As [answer_calls], with the calls that are known to succeed answered
    by the assumption [Henv]. *)
Ltac answer_calls_given env Henv :=
  repeat first
    [ match goal with
      | |- context [env ?history ?c] =>
          destruct (Henv history c eq_refl) as [? ->]; simpl
      end
    | match goal with
      | |- context [env ?history ?c] =>
          destruct (env history c) as [?|?]; simpl
      end ].

(** The inner [try] of [/reportlost] swallows every file-system error: on a
    complete report, as long as the [Date] constructor, [new LostItem] and
    [save] succeed, the request is answered 201 and a document is saved,
    whatever reading or deleting the uploaded photo does. *)
Theorem reportlost_photo_errors_do_not_fail_the_report (env : Env) (req : HttpRequest) :
  missingFields (body req) = [] ->
  (forall history c,
     isFileSystemCall c = false -> exists value, env history c = Normal value) ->
  exists reply trace doc,
    exec env (reportlost req) = (Normal reply, trace)
    /\ code reply = 201%nat
    /\ last trace = Some (DocSave doc).
Proof.
  intros Hmissing Henv. unfold exec, reportlost. rewrite Hmissing. simpl.
  destruct (file req) as [upload|]; simpl.
  all: answer_calls_given env Henv.
  all: by eexists _, _, _.
Qed.

(** A complete report with a photo on a file system that fails. *)
Lemma reportlost_photo_errors_witness :
  exists reply trace doc,
    exec Desk.brokenDisk (reportlost (Desk.report (Some Desk.photoUpload)))
    = (Normal reply, trace)
    /\ code reply = 201%nat
    /\ last trace = Some (DocSave doc).
Proof.
  apply (reportlost_photo_errors_do_not_fail_the_report Desk.brokenDisk
           (Desk.report (Some Desk.photoUpload))).
  - vm_compute. reflexivity.
  - intros history c Hfs. destruct c; try discriminate Hfs; eexists; reflexivity.
Defined.

(** [/reportlost] deletes a file only after it read that very file, the
    uploaded one, with success: the bytes are then on the document, and the
    deletion comes before the save, which is the last call. *)
Theorem reportlost_deletes_only_what_it_read
    (env : Env) (req : HttpRequest) (target : JsStr) :
  let contact := field (body req) "contact" in
  let location := field (body req) "location" in
  let time := field (body req) "time" in
  let date := field (body req) "date" in
  let description := field (body req) "description" in
  let category := field (body req) "category" in
  UnlinkSync target ∈ (exec env (reportlost req)).2 ->
  exists upload timeValue dateValue lostItem bytes,
    file req = Some upload
    /\ target = path upload
    /\ env [DateNew time; DateNew date;
            LostItemNew contact location timeValue dateValue description category]
         (ReadFileSync target)
       = Normal bytes
    /\ (exec env (reportlost req)).2
       = [DateNew time; DateNew date;
          LostItemNew contact location timeValue dateValue description category;
          ReadFileSync target; UnlinkSync target;
          DocSave (<[ "photoContentType" := JsString (mimetype upload) ]>
                     (<[ "photo" := JsBuffer bytes ]> lostItem))].
Proof.
  intros contact location time date description category.
  unfold exec, reportlost.
  fold contact location time date description category.
  destruct (missingFields (body req)) as [|first others]; simpl;
    [|intros Hin; by apply elem_of_nil in Hin].
  destruct (env [] (DateNew time)) as [timeValue|message] eqn:Htime; simpl;
    [|intros Hin; repeat (apply elem_of_cons in Hin as [Hin|Hin]; [discriminate Hin|]);
      by apply elem_of_nil in Hin].
  destruct (env [DateNew time] (DateNew date)) as [dateValue|message] eqn:Hdate; simpl;
    [|intros Hin; repeat (apply elem_of_cons in Hin as [Hin|Hin]; [discriminate Hin|]);
      by apply elem_of_nil in Hin].
  destruct (env [DateNew time; DateNew date]
              (LostItemNew contact location timeValue dateValue description category))
    as [lostItem|message] eqn:Hnew; simpl;
    [|intros Hin; repeat (apply elem_of_cons in Hin as [Hin|Hin]; [discriminate Hin|]);
      by apply elem_of_nil in Hin].
  destruct (file req) as [upload|]; simpl.
  - destruct (env [DateNew time; DateNew date;
                   LostItemNew contact location timeValue dateValue description category]
                (ReadFileSync (path upload))) as [bytes|message] eqn:Hread; simpl.
    + answer_calls env.
      all: intros Hin;
        repeat (apply elem_of_cons in Hin as [Hin|Hin]; [try discriminate Hin|]);
        try (by apply elem_of_nil in Hin).
      all: injection Hin as ->.
      all: by exists upload, timeValue, dateValue, lostItem, bytes.
    + answer_calls env.
      all: intros Hin;
        repeat (apply elem_of_cons in Hin as [Hin|Hin]; [discriminate Hin|]);
        by apply elem_of_nil in Hin.
  - answer_calls env.
    all: intros Hin;
      repeat (apply elem_of_cons in Hin as [Hin|Hin]; [discriminate Hin|]);
      by apply elem_of_nil in Hin.
Qed.

(** A photo that can be read but not deleted: the deletion was attempted
    after the read, and the document saved carries the bytes. *)
Lemma reportlost_deletes_only_what_it_read_witness :
  exists upload timeValue dateValue lostItem bytes,
    file (Desk.report (Some Desk.photoUpload)) = Some upload
    /\ path Desk.photoUpload = path upload
    /\ Desk.readOnlyDisk
         [DateNew (field (body (Desk.report (Some Desk.photoUpload))) "time");
          DateNew (field (body (Desk.report (Some Desk.photoUpload))) "date");
          LostItemNew (field (body (Desk.report (Some Desk.photoUpload))) "contact")
            (field (body (Desk.report (Some Desk.photoUpload))) "location")
            timeValue dateValue
            (field (body (Desk.report (Some Desk.photoUpload))) "description")
            (field (body (Desk.report (Some Desk.photoUpload))) "category")]
         (ReadFileSync (path Desk.photoUpload))
       = Normal bytes
    /\ (exec Desk.readOnlyDisk (reportlost (Desk.report (Some Desk.photoUpload)))).2
       = [DateNew (field (body (Desk.report (Some Desk.photoUpload))) "time");
          DateNew (field (body (Desk.report (Some Desk.photoUpload))) "date");
          LostItemNew (field (body (Desk.report (Some Desk.photoUpload))) "contact")
            (field (body (Desk.report (Some Desk.photoUpload))) "location")
            timeValue dateValue
            (field (body (Desk.report (Some Desk.photoUpload))) "description")
            (field (body (Desk.report (Some Desk.photoUpload))) "category");
          ReadFileSync (path Desk.photoUpload); UnlinkSync (path Desk.photoUpload);
          DocSave (<[ "photoContentType" := JsString (mimetype upload) ]>
                     (<[ "photo" := JsBuffer bytes ]> lostItem))].
Proof.
  apply (reportlost_deletes_only_what_it_read Desk.readOnlyDisk
           (Desk.report (Some Desk.photoUpload)) (path Desk.photoUpload)).
  apply (list_elem_of_lookup_2 _ 4%nat). vm_compute. reflexivity.
Defined.

(** The pen, embedded in one dimension, against a query embedded in two. *)
Lemma shorter_candidate_embedding_witness :
  (computeTextSimilarity Mixed.model "wallet" (description Mixed.pen) (Demo.world [Mixed.pen])).1
  = Normal nan
  /\ exists r,
       (matchingfounditems Mixed.model (Demo.request "wallet") (Demo.world [Mixed.pen])).1
       = Normal r
       /\ status r = 200%nat
       /\ Mixed.pen ∉ returnedItems r.
Proof.
  apply (shorter_candidate_embedding_never_matches Mixed.model (Demo.request "wallet")
           (Demo.world [Mixed.pen]) "wallet" Mixed.pen
           [[1; 0]]%float [[1]]%float [1; 0]%float [1]%float).
  - vm_compute. reflexivity.
  - discriminate.
  - reflexivity.
  - reflexivity.
  - reflexivity.
  - reflexivity.
  - reflexivity.
  - simpl. lia.
Defined.
